(** * BMP180 driver (lib/bmp180.py): a shallow embedding and its properties

    The driver reads a barometric pressure / temperature sensor over a
    register bus and turns raw counts into calibrated values.

    Number model.  The source computes with Python floats.  The compensation
    arithmetic (+, -, *, /, comparison) is embedded over the rationals [Q],
    that is, as exact arithmetic; Python's true division is kept fallible
    (a zero divisor raises ZeroDivisionError).  The altitude formulas use a
    power with a non-integer exponent and are embedded over the reals [R].
    Integers (register values, coefficients, modes) are [Z].

    A float result differs from the exact one by rounding.  The statements
    below are chosen so that rounding does not change what they assert:
    they are about values up to a margin, about order, about which
    division can fail, or they say in their own text that they are about
    exact arithmetic.  The divisor X1 + MD of the temperature term is
    exact in floats for 16-bit words; the divisor B4 of the pressure term
    is not, so nothing is stated about the exact set of inputs at which it
    vanishes. *)

From Stdlib Require Import ZArith QArith Qpower Qround Reals List Bool Lia Lra.
From Stdlib Require Lqa.
Import ListNotations.

(** ** Exceptions and results *)

(** The exceptions the driver can raise.  [RuntimeError] is the
    constructor's "Failed to find BMP180" error and carries the chip
    identifier of its message; [ValueError] is raised by the two validating
    setters.  [ComplexValue] stands for a float power that leaves the real
    numbers, where Python goes on with a complex number. *)
Inductive Exn : Type :=
| ZeroDivisionError
| KeyError (key : Z)
| ValueError (value : Z)
| RuntimeError (chip_id : Z)
| ComplexValue.

Inductive Result (A : Type) : Type :=
| Ok (a : A)
| Err (e : Exn).

Arguments Ok {A} a.
Arguments Err {A} e.

Definition rbind {A B : Type} (r : Result A) (k : A -> Result B) : Result B :=
  match r with
  | Ok a => k a
  | Err e => Err e
  end.

Definition succeeds {A : Type} (r : Result A) : Prop := exists a, r = Ok a.

Declare Scope result_scope.
Delimit Scope result_scope with result.
Notation "x <- c ;; k" := (rbind c (fun x => k))
  (at level 61, c at next level, right associativity) : result_scope.

(** ** Module constants *)

Module Const.
Local Open Scope Z_scope.

Definition _CHIP_ID : Z := 0x255.
Definition _I2C_ADDR : Z := 0x77.

Definition _REGISTER_CHIPID : Z := 0xD0.
Definition _REGISTER_SOFTRESET : Z := 0xE0.
Definition _REGISTER_CONTROL : Z := 0xF4.
Definition _REGISTER_DATA : Z := 0xF6.
Definition _REGISTER_AC1 : Z := 0xAA.

Definition TEMPERATURE_CMD : Z := 0x2E.
Definition PRESSURE_OVERSAMPLING_X1 : Z := 0x01.
Definition PRESSURE_OVERSAMPLING_X2 : Z := 0x02.
Definition PRESSURE_OVERSAMPLING_X4 : Z := 0x03.
Definition PRESSURE_OVERSAMPLING_X8 : Z := 0x04.

(** The dict [_BMP180_PRESSURE_CMD], as its list of items. *)
Definition _BMP180_PRESSURE_CMD : list (Z * Z) :=
  [ (PRESSURE_OVERSAMPLING_X1, 0x34);
    (PRESSURE_OVERSAMPLING_X2, 0x74);
    (PRESSURE_OVERSAMPLING_X4, 0xB4);
    (PRESSURE_OVERSAMPLING_X8, 0xF4) ].

Definition MODE_ULTRALOWPOWER : Z := 0x00.
Definition MODE_STANDARD : Z := 0x01.
Definition MODE_HIGHRES : Z := 0x02.
Definition MODE_ULTRAHIGHRES : Z := 0x03.

Definition _BMP180_MODES : list Z :=
  [MODE_ULTRALOWPOWER; MODE_STANDARD; MODE_HIGHRES; MODE_ULTRAHIGHRES].
End Const.
Import Const.

(** Python's [d[k]] on a dict: the value, or KeyError. *)
Fixpoint dict_getitem (d : list (Z * Z)) (k : Z) : Result Z :=
  match d with
  | [] => Err (KeyError k)
  | (k', v) :: rest => if Z.eqb k k' then Ok v else dict_getitem rest k
  end.

(** Python's [k in d] on a dict and [v in t] on a tuple. *)
Definition dict_contains (d : list (Z * Z)) (k : Z) : bool :=
  existsb (fun kv => Z.eqb k (fst kv)) d.

Definition tuple_contains (t : list Z) (v : Z) : bool :=
  existsb (Z.eqb v) t.

(** [t[i]] on the coefficient tuple (always 11 long, see [_coeffs]). *)
Definition item (t : list Z) (i : nat) : Z := nth i t 0%Z.

(** ** The compensation arithmetic *)

Module Compensation.
Local Open Scope Q_scope.
Local Open Scope result_scope.

(** Python's [/] on floats. *)
Definition truediv (x y : Q) : Result Q :=
  if Qeq_bool y 0 then Err ZeroDivisionError else Ok (x / y).

Infix "//" := truediv (at level 40, left associativity) : result_scope.

(** Python's implicit conversion of an int operand to float. *)
Definition of_int (z : Z) : Q := inject_Z z.

(** Lines 131-133 of [temperature]: the term B5. *)
Definition temperature_B5 (coeffs_mem : list Z) (UT : Z) : Result Q :=
  X1 <- of_int ((UT - item coeffs_mem 5) * item coeffs_mem 4) // 2 ^ 15 ;;
  X2 <- (of_int (item coeffs_mem 9) * 2 ^ 11) // (X1 + of_int (item coeffs_mem 10)) ;;
  Ok (X1 + X2).

(** Lines 131-135 of [temperature], after the raw value has been read. *)
Definition temperature_compensation (coeffs_mem : list Z) (UT : Z) : Result Q :=
  B5 <- temperature_B5 coeffs_mem UT ;;
  t <- (B5 + 8) // 2 ^ 4 ;;
  temp <- t // 10 ;;
  Ok temp.

(** Lines 166-168 of [pressure]: its own copy of the term B5. *)
Definition pressure_B5 (coeffs_mem : list Z) (UT : Z) : Result Q :=
  X1 <- of_int ((UT - item coeffs_mem 5) * item coeffs_mem 4) // 2 ^ 15 ;;
  X2 <- (of_int (item coeffs_mem 9) * 2 ^ 11) // (X1 + of_int (item coeffs_mem 10)) ;;
  Ok (X1 + X2).

(** Lines 169-178 of [pressure]: B4 and B7 from B5. *)
Definition pressure_B4_B7 (coeffs_mem : list Z) (_mode : Z) (UP : Z) (B5 : Q)
  : Result (Q * Q) :=
  let B6 := B5 - 4000 in
  a <- (of_int (item coeffs_mem 7) * (B6 * B6)) // 2 ^ 12 ;;
  X1 <- a // 2 ^ 11 ;;
  X2 <- (of_int (item coeffs_mem 1) * B6) // 2 ^ 11 ;;
  let X3 := X1 + X2 in
  B3 <- (((of_int (item coeffs_mem 0 * 4) + X3) * 2 ^ _mode) + 2) // 4 ;;
  X1 <- (of_int (item coeffs_mem 2) * B6) // 2 ^ 13 ;;
  b <- (B6 * B6) // 2 ^ 12 ;;
  X2 <- (of_int (item coeffs_mem 6) * b) // 2 ^ 16 ;;
  X3 <- ((X1 + X2) + 2) // 2 ^ 2 ;;
  B4 <- (of_int (item coeffs_mem 3) * (X3 + 32768)) // 2 ^ 15 ;;
  s <- 50000 // 2 ^ _mode ;;
  let B7 := (of_int UP - B3) * s in
  Ok (B4, B7).

(** Lines 180-183 of [pressure]: the two branches and their selection. *)
Definition press_low (B7 B4 : Q) : Result Q := (B7 * 2) // B4.

Definition press_high (B7 B4 : Q) : Result Q :=
  q <- B7 // B4 ;;
  Ok (q * 2).

Definition press_select (B7 B4 : Q) : Result Q :=
  if Qlt_le_dec B7 2147483648 then press_low B7 B4 else press_high B7 B4.

(** Lines 185-189 of [pressure]: the final correction, in hPa. *)
Definition pressure_final (press : Q) : Result Q :=
  a <- press // 2 ^ 8 ;;
  b <- press // 2 ^ 8 ;;
  let X1 := a * b in
  X1 <- (X1 * 3038) // 2 ^ 16 ;;
  X2 <- (-7357 * press) // 2 ^ 16 ;;
  c <- (X1 + X2 + 3791) // 2 ^ 4 ;;
  (press + c) // 100.

(** Lines 166-189 of [pressure], after the raw values have been read. *)
Definition pressure_compensation (coeffs_mem : list Z) (_mode : Z) (UT UP : Z)
  : Result Q :=
  B5 <- pressure_B5 coeffs_mem UT ;;
  B4B7 <- pressure_B4_B7 coeffs_mem _mode UP B5 ;;
  press <- press_select (snd B4B7) (fst B4B7) ;;
  pressure_final press.
End Compensation.
Import Compensation.


(** ** The register bus *)

(** What the driver does on the bus, in the order it does it. *)
Inductive Event : Type :=
| EvWrite (register : Z) (data : list Z)
| EvRead (register : Z) (nbytes : nat)
| EvSleep (seconds : Q).

(** A bus computation threads the history of events and may raise; the
    history survives an exception. *)
Definition M (A : Type) : Type := list Event -> Result A * list Event.

Definition ret {A : Type} (a : A) : M A := fun h => (Ok a, h).

Definition raise {A : Type} (e : Exn) : M A := fun h => (Err e, h).

Definition bind {A B : Type} (m : M A) (k : A -> M B) : M B :=
  fun h =>
    match m h with
    | (Ok a, h') => k a h'
    | (Err e, h') => (Err e, h')
    end.

Definition lift {A : Type} (r : Result A) : M A := fun h => (r, h).

Declare Scope bus_scope.
Delimit Scope bus_scope with bus.
Notation "x <- c ;; k" := (bind c (fun x => k))
  (at level 61, c at next level, right associativity) : bus_scope.
Notation "c ;;; k" := (bind c (fun _ => k))
  (at level 61, right associativity) : bus_scope.

(** Python's [struct] formats, as far as the driver uses them. *)
Module Struct.
Local Open Scope Z_scope.

Inductive ByteOrder : Type := Native | BigEndian.
Inductive Code : Type := Code_h | Code_H.

Record Format : Type := { order : ByteOrder; codes : list Code }.

Definition calcsize (f : Format) : nat := (2 * length (codes f))%nat.

(** Two bytes to a 16-bit word; native order is little-endian on the
    boards the driver runs on. *)
Definition word (o : ByteOrder) (b0 b1 : Z) : Z :=
  match o with
  | BigEndian => b0 * 256 + b1
  | Native => b0 + b1 * 256
  end.

Definition signed16 (w : Z) : Z := if w <? 32768 then w else w - 65536.

Definition decode (c : Code) (w : Z) : Z :=
  match c with
  | Code_H => w
  | Code_h => signed16 w
  end.

Fixpoint unpack_codes (o : ByteOrder) (cs : list Code) (buf : list Z) : list Z :=
  match cs, buf with
  | c :: cs', b0 :: b1 :: buf' => decode c (word o b0 b1) :: unpack_codes o cs' buf'
  | _, _ => []
  end.

Definition unpack (f : Format) (buf : list Z) : list Z :=
  unpack_codes (order f) (codes f) buf.

(** Packing one unsigned 16-bit value. *)
Definition pack_H (o : ByteOrder) (v : Z) : list Z :=
  match o with
  | BigEndian => [(v / 256) mod 256; v mod 256]
  | Native => [v mod 256; (v / 256) mod 256]
  end.

(** The format strings of the class attributes. *)
Definition fmt_H : Format := {| order := Native; codes := [Code_H] |}.
Definition fmt_be_H : Format := {| order := BigEndian; codes := [Code_H] |}.
Definition fmt_coeffs : Format :=
  {| order := BigEndian;
     codes := [Code_h; Code_h; Code_h; Code_H; Code_H; Code_H;
               Code_h; Code_h; Code_h; Code_h; Code_h] |}.
End Struct.

(** ** The driver object *)

Record BMP180 : Type := {
  _oversampling_setting : Z;
  _mode : Z;
  coeffs_mem : list Z;
  sea_level_pressure : R
}.

(** Python's [round(x, 1)] on a real: the nearest multiple of 0.1, a tie
    going to the even one. *)
Module Round.
Local Open Scope R_scope.

Definition round_half_even (x : R) : Z :=
  let f := Int_part x in
  let d := x - IZR f in
  if Rlt_dec d (1 / 2) then f
  else if Rlt_dec (1 / 2) d then (f + 1)%Z
  else if Z.even f then f else (f + 1)%Z.

Definition round1 (x : R) : R := IZR (round_half_even (x * 10)) / 10.
End Round.

(** The altitude formulas, after the pressure has been read. *)
Module Altitude.
Local Open Scope R_scope.
Local Open Scope result_scope.

Definition rdiv (x y : R) : Result R :=
  if Req_dec_T y 0 then Err ZeroDivisionError else Ok (x / y).

(** [x ** y] for a float [x] and a positive non-integer literal [y]: a
    negative base gives a complex number in Python, which this model does
    not represent. *)
Definition float_pow (x y : R) : Result R :=
  if Rlt_dec 0 x then Ok (Rpower x y)
  else if Req_dec_T x 0 then Ok 0
  else Err ComplexValue.

(** Lines 146-149: the getter. *)
Definition altitude_of (pressure sea_level_pressure : R) : Result R :=
  q <- rdiv pressure sea_level_pressure ;;
  w <- float_pow q 0.19025 ;;
  let altitude := 44330 * (1 - w) in
  Ok (Round.round1 altitude).

(** Line 153: the value the setter stores in [sea_level_pressure]. *)
Definition sea_level_of (pressure value : R) : Result R :=
  w <- float_pow (1 - value / 44330) 5.255 ;;
  rdiv pressure w.
End Altitude.

Section Driver.
Local Open Scope Z_scope.
Local Open Scope bus_scope.

(** The sensor: the byte a register holds, given everything that has
    happened on the bus so far.  The bus itself is taken as fault free. *)
Variable device : list Event -> Z -> Z.

Definition read_bytes (register : Z) (n : nat) : M (list Z) :=
  fun h =>
    (Ok (map (fun i => device h (register + Z.of_nat i) mod 256) (seq 0 n)),
     h ++ [EvRead register n]).

Definition write_bytes (register : Z) (data : list Z) : M unit :=
  fun h => (Ok tt, h ++ [EvWrite register data]).

Definition sleep (seconds : Q) : M unit :=
  fun h => (Ok tt, h ++ [EvSleep seconds]).

(** The descriptors of the external module i2c_struct: a register
    address with a struct format.  Reading fetches [calcsize] bytes from
    the address and unpacks them; writing packs the value and sends it. *)
Definition struct_get (register : Z) (f : Struct.Format) : M (list Z) :=
  buf <- read_bytes register (Struct.calcsize f) ;;
  ret (Struct.unpack f buf).

Definition unary_get (register : Z) (f : Struct.Format) : M Z :=
  t <- struct_get register f ;;
  ret (hd 0 t).

Definition unary_set (register : Z) (f : Struct.Format) (value : Z) : M unit :=
  write_bytes register (Struct.pack_H (Struct.order f) value).

(** The class attributes of [BMP180]. *)
Definition get_device_id : M Z := unary_get _REGISTER_CHIPID Struct.fmt_H.
Definition set_reg_control (v : Z) : M unit := unary_set _REGISTER_CONTROL Struct.fmt_H v.
Definition set_reg_soft_reset (v : Z) : M unit := unary_set _REGISTER_SOFTRESET Struct.fmt_H v.
Definition get_regdata_MSB : M Z := unary_get _REGISTER_DATA Struct.fmt_H.
Definition get_regdata_LSB : M Z := unary_get (_REGISTER_DATA + 1) Struct.fmt_H.
Definition get_regdata_XLSB : M Z := unary_get (_REGISTER_DATA + 2) Struct.fmt_H.
Definition get_coeffs : M (list Z) := struct_get _REGISTER_AC1 Struct.fmt_coeffs.
Definition get_raw_temperature : M Z := unary_get _REGISTER_DATA Struct.fmt_be_H.

(** [__init__]. *)
Definition __init__ : M BMP180 :=
  id <- get_device_id ;;
  if negb (id =? _CHIP_ID) then
    id' <- get_device_id ;;
    raise (RuntimeError id')
  else
    coeffs <- get_coeffs ;;
    ret {| _oversampling_setting := PRESSURE_OVERSAMPLING_X8;
           _mode := MODE_HIGHRES;
           coeffs_mem := coeffs;
           sea_level_pressure := 1013.25%R |}.

Definition _reset : M unit :=
  set_reg_soft_reset 0xB6 ;;;
  sleep 0.004.

(** [temperature]. *)
Definition temperature (self : BMP180) : M Q :=
  set_reg_control TEMPERATURE_CMD ;;;
  sleep 0.005 ;;;
  UT <- get_raw_temperature ;;
  lift (temperature_compensation (coeffs_mem self) UT).

(** The delay chosen by the [if] chain of [_read_raw_pressure]. *)
Definition settle_time (mode : Z) : Q :=
  if mode =? PRESSURE_OVERSAMPLING_X8 then 0.026
  else if mode =? PRESSURE_OVERSAMPLING_X4 then 0.014
  else if mode =? PRESSURE_OVERSAMPLING_X2 then 0.008
  else 0.005.

(** [_read_raw_pressure]. *)
Definition _read_raw_pressure (self : BMP180) : M Z :=
  cmd <- lift (dict_getitem _BMP180_PRESSURE_CMD (_mode self)) ;;
  set_reg_control cmd ;;;
  sleep (settle_time (_mode self)) ;;;
  msb16 <- get_regdata_MSB ;;
  let msb := Z.land msb16 0xFF in
  lsb16 <- get_regdata_LSB ;;
  let lsb := Z.land lsb16 0xFF in
  xlsb16 <- get_regdata_XLSB ;;
  let xlsb := Z.land xlsb16 0xFF in
  ret (Z.shiftr (Z.shiftl msb 16 + Z.shiftl lsb 8 + xlsb) (8 - _mode self)).

(** [pressure]. *)
Definition pressure (self : BMP180) : M Q :=
  set_reg_control TEMPERATURE_CMD ;;;
  sleep 0.005 ;;;
  UT <- get_raw_temperature ;;
  UP <- _read_raw_pressure self ;;
  lift (pressure_compensation (coeffs_mem self) (_mode self) UT UP).

(** [altitude], getter and setter.  The setter returns the object after
    the assignment. *)
Definition altitude (self : BMP180) : M R :=
  p <- pressure self ;;
  lift (Altitude.altitude_of (Q2R p) (sea_level_pressure self)).

Definition set_altitude (self : BMP180) (value : R) : M BMP180 :=
  p <- pressure self ;;
  s <- lift (Altitude.sea_level_of (Q2R p) value) ;;
  ret {| _oversampling_setting := _oversampling_setting self;
         _mode := _mode self;
         coeffs_mem := coeffs_mem self;
         sea_level_pressure := s |}.
End Driver.

(** The two setters that validate their argument.  They do not touch the
    bus; each returns its outcome together with the object afterwards. *)
Definition set_mode (self : BMP180) (value : Z) : Result unit * BMP180 :=
  if negb (tuple_contains _BMP180_MODES value) then
    (Err (ValueError value), self)
  else
    (Ok tt, {| _oversampling_setting := _oversampling_setting self;
               _mode := value;
               coeffs_mem := coeffs_mem self;
               sea_level_pressure := sea_level_pressure self |}).

Definition set_oversampling_setting (self : BMP180) (value : Z)
  : Result unit * BMP180 :=
  if negb (dict_contains _BMP180_PRESSURE_CMD value) then
    (Err (ValueError value), self)
  else
    (Ok tt, {| _oversampling_setting := value;
               _mode := _mode self;
               coeffs_mem := coeffs_mem self;
               sea_level_pressure := sea_level_pressure self |}).

(** ** Inputs and named quantities used in the statements *)

(** The worked example of the manufacturer's datasheet: AC1..AC6, B1, B2,
    MB, MC, MD in the order of the coefficient tuple. *)
Definition datasheet_coeffs : list Z :=
  [408; -72; -14383; 32741; 32757; 23153; 6190; 4; -32768; -8711; 2868]%Z.
Definition datasheet_UT : Z := 27898.
Definition datasheet_UP : Z := 23843.

(** The divisor [X1 + coeffs_mem[10]] of the temperature term. *)
Definition temperature_divisor (coeffs_mem : list Z) (UT : Z) : Q :=
  (of_int ((UT - item coeffs_mem 5) * item coeffs_mem 4) / 2 ^ 15
   + of_int (item coeffs_mem 10))%Q.

(** ** Quantities observed on the bus *)

Section Observations.
Local Open Scope Z_scope.

Variable device : list Event -> Z -> Z.

(** The byte the sensor presents at a register after history [h]. *)
Definition byte_at (h : list Event) (register : Z) : Z :=
  device h register mod 256.

(** The 16-bit value the constructor compares with [_CHIP_ID]. *)
Definition chip_id_at (h : list Event) : Z :=
  byte_at h _REGISTER_CHIPID + byte_at h (_REGISTER_CHIPID + 1) * 256.

(** The [i]-th big-endian word of the calibration block, unsigned. *)
Definition calibration_word (h : list Event) (i : Z) : Z :=
  byte_at h (_REGISTER_AC1 + 2 * i) * 256 + byte_at h (_REGISTER_AC1 + 2 * i + 1).
End Observations.

(** Whether an event reads any register of the calibration block
    0xAA..0xBF. *)
Definition reads_calibration (e : Event) : bool :=
  match e with
  | EvRead register n =>
      ((register <? _REGISTER_AC1 + 22) && (_REGISTER_AC1 <? register + Z.of_nat n))%Z
  | _ => false
  end.

Definition calibration_reads (h : list Event) : nat :=
  length (filter reads_calibration h).

(** A sensor that answers 0x55, 0x02 at the identifier register (the
    16-bit value 0x255) and one that answers 0x55, 0x00. *)
Definition device_present : list Event -> Z -> Z :=
  fun _ register =>
    if (register =? 0xD0)%Z then 0x55%Z
    else if (register =? 0xD1)%Z then 0x02%Z else 0%Z.

Definition device_other : list Event -> Z -> Z :=
  fun _ register => if (register =? 0xD0)%Z then 0x55%Z else 0%Z.

(** The intermediate terms B5, B4 and B7 of the datasheet example in
    mode 1. *)
Definition datasheet_B5 : Q :=
  Eval vm_compute in
    match pressure_B5 datasheet_coeffs datasheet_UT with
    | Ok b => b
    | Err _ => 0%Q
    end.

Definition datasheet_B4_B7 : Q * Q :=
  Eval vm_compute in
    match pressure_B4_B7 datasheet_coeffs 1 datasheet_UP datasheet_B5 with
    | Ok b => b
    | Err _ => (0%Q, 0%Q)
    end.

(** ** Calls that change the settings of the object *)

(** What a user can do to the settings without touching the bus: the two
    validating setters, and the plain attribute [sea_level_pressure], which
    code.py assigns directly.  A rejected call leaves the object as the
    setter returned it. *)
Inductive SettingCall : Type :=
| CallSetMode (value : Z)
| CallSetOversampling (value : Z)
| AssignSeaLevel (value : R).

Definition apply_call (self : BMP180) (c : SettingCall) : BMP180 :=
  match c with
  | CallSetMode v => snd (set_mode self v)
  | CallSetOversampling v => snd (set_oversampling_setting self v)
  | AssignSeaLevel r =>
      {| _oversampling_setting := _oversampling_setting self;
         _mode := _mode self;
         coeffs_mem := coeffs_mem self;
         sea_level_pressure := r |}
  end.

Definition apply_calls (self : BMP180) (cs : list SettingCall) : BMP180 :=
  fold_left apply_call cs self.

(** Whether a call is one of the mode setter. *)
Definition is_mode_call (c : SettingCall) : bool :=
  match c with
  | CallSetMode _ => true
  | _ => false
  end.

(** The settings the two setters accept. *)
Definition valid_settings (self : BMP180) : Prop :=
  In (_mode self) [0; 1; 2; 3]%Z /\
  In (_oversampling_setting self) [1; 2; 3; 4]%Z.

(** ** The polling program (code.py) *)

Module Program.
Local Open Scope Q_scope.

Definition HIGH_TEMP : Q := 83.
Definition POLL_FREQ : Q := 30.
Definition MAIL_DELAY : Q := 600.

(** The arithmetic of [get_tempF], in exact arithmetic. *)
Definition tempF_of (tempC : Q) : Q := tempC * (9 / 5) + 32.

(** [get_tempF]. *)
Definition get_tempF (device : list Event -> Z -> Z) (bmp : BMP180) : M Q :=
  bind (temperature device bmp) (fun tempC => ret (tempF_of tempC)).

(** One pass of the [while True] loop sees a temperature and the clock:
    [now] is the reading of [time.monotonic()] before the test and [stamp]
    the reading stored in [last_violation] when a mail is sent. *)
Record Tick : Type := { tempF : Q; now : Q; stamp : Q }.

(** The test of the [if] in the loop. *)
Definition alert_due (last_violation : Q) (t : Tick) : bool :=
  if Qlt_le_dec HIGH_TEMP (tempF t) then
    if Qlt_le_dec MAIL_DELAY (now t - last_violation) then true else false
  else false.

(** The loop over the passes it completes, from the value of
    [last_violation] at its start; the result lists the passes that sent a
    mail.  A pass in which the sensor read or the mail raises ends the
    program, so it is the last pass of the list. *)
Fixpoint loop (last_violation : Q) (ticks : list Tick) : list Tick :=
  match ticks with
  | [] => []
  | t :: rest =>
      if alert_due last_violation t
      then t :: loop (stamp t) rest
      else loop last_violation rest
  end.

(** The clock never runs backwards: from time [t0] on, every reading is at
    least the one before. *)
Fixpoint clock_monotone (t0 : Q) (ticks : list Tick) : Prop :=
  match ticks with
  | [] => True
  | t :: rest => t0 <= now t /\ now t <= stamp t /\ clock_monotone (stamp t) rest
  end.

(** Mails whose times are each more than [MAIL_DELAY] after the one
    before, the first more than [MAIL_DELAY] after [prev]. *)
Fixpoint spaced (prev : Q) (mails : list Tick) : Prop :=
  match mails with
  | [] => True
  | t :: rest => prev + MAIL_DELAY < now t /\ spaced (now t) rest
  end.
End Program.

(** ** Facts about the arithmetic *)

Section ArithmeticFacts.
Local Open Scope Q_scope.
Local Open Scope result_scope.

Lemma truediv_ok (x y : Q) : ~ y == 0 -> truediv x y = Ok (x / y).
Proof.
  intros H. unfold truediv.
  destruct (Qeq_bool y 0) eqn:E; [| reflexivity].
  apply Qeq_bool_eq in E. contradiction.
Qed.

Lemma truediv_zero (x y : Q) : y == 0 -> truediv x y = Err ZeroDivisionError.
Proof.
  intros H. unfold truediv.
  destruct (Qeq_bool y 0) eqn:E; [reflexivity |].
  apply Qeq_bool_neq in E. contradiction.
Qed.

Lemma truediv_succeeds (x y : Q) : succeeds (truediv x y) <-> ~ y == 0.
Proof.
  split.
  - intros [q Hq] Hy. rewrite (truediv_zero x y Hy) in Hq. discriminate.
  - intros Hy. exists (x / y). now apply truediv_ok.
Qed.

Lemma pow2_nonzero (m : Z) : ~ 2 ^ m == 0.
Proof. apply Qpower_not_0. discriminate. Qed.

Lemma temperature_B5_eq (c : list Z) (UT : Z) :
  temperature_B5 c UT =
  (X2 <- (of_int (item c 9) * 2 ^ 11) // temperature_divisor c UT ;;
   Ok (of_int ((UT - item c 5) * item c 4) / 2 ^ 15 + X2)).
Proof. reflexivity. Qed.


Lemma pressure_B5_eq (c : list Z) (UT : Z) :
  pressure_B5 c UT =
  (X2 <- (of_int (item c 9) * 2 ^ 11) // temperature_divisor c UT ;;
   Ok (of_int ((UT - item c 5) * item c 4) / 2 ^ 15 + X2)).
Proof. reflexivity. Qed.

Lemma pressure_B5_succeeds (c : list Z) (UT : Z) :
  succeeds (pressure_B5 c UT) <-> ~ temperature_divisor c UT == 0.
Proof.
  rewrite pressure_B5_eq. split.
  - intros [b Hb] Hz. rewrite (truediv_zero _ _ Hz) in Hb. discriminate.
  - intros Hz. rewrite (truediv_ok _ _ Hz). eexists. reflexivity.
Qed.

Lemma temperature_tail_total (B5 : Q) :
  (t <- (B5 + 8) // 2 ^ 4 ;; temp <- t // 10 ;; Ok temp)
  = Ok ((B5 + 8) / 2 ^ 4 / 10).
Proof. reflexivity. Qed.

Lemma pressure_B4_B7_total (c : list Z) (m UP : Z) (B5 : Q) :
  succeeds (pressure_B4_B7 c m UP B5).
Proof.
  unfold pressure_B4_B7, succeeds.
  cbn [rbind truediv Qeq_bool].
  change (Qeq_bool (2 ^ 12) 0) with false.
  change (Qeq_bool (2 ^ 11) 0) with false.
  change (Qeq_bool (2 ^ 13) 0) with false.
  change (Qeq_bool (2 ^ 16) 0) with false.
  change (Qeq_bool (2 ^ 15) 0) with false.
  change (Qeq_bool (2 ^ 2) 0) with false.
  change (Qeq_bool 4 0) with false.
  cbv iota beta.
  rewrite (truediv_ok 50000 (2 ^ m) (pow2_nonzero m)).
  cbn [rbind]. eexists. reflexivity.
Qed.

Lemma pressure_final_total (press : Q) : succeeds (pressure_final press).
Proof. unfold pressure_final, succeeds. eexists. reflexivity. Qed.

Lemma press_low_eq (B7 B4 : Q) :
  ~ B4 == 0 -> press_low B7 B4 = Ok (B7 * 2 / B4).
Proof. intros H. unfold press_low. now apply truediv_ok. Qed.

Lemma press_high_eq (B7 B4 : Q) :
  ~ B4 == 0 -> press_high B7 B4 = Ok (B7 / B4 * 2).
Proof. intros H. unfold press_high. now rewrite truediv_ok. Qed.

End ArithmeticFacts.

(** ** The compensation engine: properties *)

Section CompensationProperties.
Local Open Scope Q_scope.
Local Open Scope result_scope.



Lemma temperature_compensation_error (c : list Z) (UT : Z) (e : Exn) :
  temperature_compensation c UT = Err e -> e = ZeroDivisionError.
Proof.
  unfold temperature_compensation. rewrite temperature_B5_eq.
  unfold truediv at 1.
  destruct (Qeq_bool (temperature_divisor c UT) 0); cbn [rbind].
  - intros H. now inversion H.
  - rewrite temperature_tail_total. discriminate.
Qed.
End CompensationProperties.

(** C10. For every coefficient tuple and every raw temperature, the term B5
    that [pressure] computes with its own copy of the temperature code is
    the B5 that [temperature] computes: the two copies are the same
    function, with the same result and the same failure. *)
Theorem pressure_B5_is_temperature_B5 (coeffs_mem : list Z) (UT : Z) :
  pressure_B5 coeffs_mem UT = temperature_B5 coeffs_mem UT.
Proof.
  unfold pressure_B5, temperature_B5.
  destruct (truediv (of_int ((UT - item coeffs_mem 5) * item coeffs_mem 4)) (2 ^ 15))
    as [X1 | e]; cbn [rbind]; [| reflexivity].
  destruct (truediv (of_int (item coeffs_mem 9) * 2 ^ 11) (X1 + of_int (item coeffs_mem 10)))
    as [X2 | e]; reflexivity.
Qed.

(** C9. For every B7 and every nonzero B4 both branch expressions of the
    pressure formula are defined and equal in exact arithmetic, the
    selected branch gives that common value on either side of 2^31, and two
    inputs B7, B7' give results that differ by 2 (B7' - B7) / B4: there is
    no jump at the boundary. *)
Theorem press_branches_agree (B7 B7' B4 : Q) (HB4 : ~ (B4 == 0)%Q) :
  exists lo hi p p',
    press_low B7 B4 = Ok lo /\
    press_high B7 B4 = Ok hi /\
    (lo == hi)%Q /\
    press_select B7 B4 = Ok p /\
    (p == lo)%Q /\
    press_select B7' B4 = Ok p' /\
    (p' - p == 2 * (B7' - B7) / B4)%Q.
Proof.
  assert (Hsel : forall x, exists q,
             press_select x B4 = Ok q /\ (q == x * 2 / B4)%Q).
  { intros x. unfold press_select. destruct (Qlt_le_dec x 2147483648).
    - rewrite press_low_eq by assumption. eexists. split; [reflexivity |].
      reflexivity.
    - rewrite press_high_eq by assumption. eexists. split; [reflexivity |].
      field. assumption. }
  destruct (Hsel B7) as (p & Hp & Ep).
  destruct (Hsel B7') as (p' & Hp' & Ep').
  exists (B7 * 2 / B4)%Q, (B7 / B4 * 2)%Q, p, p'.
  repeat split.
  - now apply press_low_eq.
  - now apply press_high_eq.
  - field. assumption.
  - exact Hp.
  - exact Ep.
  - exact Hp'.
  - rewrite Ep, Ep'. field. assumption.
Qed.

Lemma press_branches_agree_witness :
  ~ (33458 == 0)%Q /\
  exists lo hi p p',
    press_low 2147483647 33458 = Ok lo /\
    press_high 2147483647 33458 = Ok hi /\
    (lo == hi)%Q /\
    press_select 2147483647 33458 = Ok p /\
    (p == lo)%Q /\
    press_select 2147483648 33458 = Ok p' /\
    (p' - p == 2 * (2147483648 - 2147483647) / 33458)%Q.
Proof.
  split.
  - intro H. vm_compute in H. discriminate H.
  - apply (press_branches_agree 2147483647 2147483648 33458).
    intro H. vm_compute in H. discriminate H.
Defined.

(** Both branches are really taken around the boundary. *)
Example press_select_below :
  press_select 2147483647 33458 = press_low 2147483647 33458.
Proof. reflexivity. Qed.

Example press_select_at :
  press_select 2147483648 33458 = press_high 2147483648 33458.
Proof. reflexivity. Qed.

(** The datasheet example, evaluated in exact arithmetic. *)
Example datasheet_temperature_value :
  exists t, temperature_compensation datasheet_coeffs datasheet_UT = Ok t /\
            Qred t = (19676067850406729 # 1307629788856320)%Q.
Proof. eexists. split; [reflexivity | vm_compute; reflexivity]. Qed.

Example datasheet_pressure_in_micro_hPa :
  exists p,
    pressure_compensation datasheet_coeffs 0 datasheet_UT datasheet_UP = Ok p /\
    Qfloor (p * 1000000) = 699606585%Z.
Proof. eexists. split; [reflexivity | vm_compute; reflexivity]. Qed.





(** ** The driver: properties *)

Section DriverProperties.
Local Open Scope Z_scope.

Variable device : list Event -> Z -> Z.

Lemma get_device_id_run (h : list Event) :
  get_device_id device h =
  (Ok (chip_id_at device h), h ++ [EvRead _REGISTER_CHIPID 2]).
Proof. reflexivity. Qed.

Lemma get_coeffs_run (h : list Event) :
  get_coeffs device h =
  (Ok (map (fun i => if (3 <=? i) && (i <=? 5)
                     then calibration_word device h i
                     else Struct.signed16 (calibration_word device h i))
           [0; 1; 2; 3; 4; 5; 6; 7; 8; 9; 10]),
   h ++ [EvRead _REGISTER_AC1 22]).
Proof. reflexivity. Qed.

Lemma calibration_reads_app (h k : list Event) :
  calibration_reads (h ++ k) = (calibration_reads h + calibration_reads k)%nat.
Proof. unfold calibration_reads. now rewrite filter_app, length_app. Qed.

Lemma init_mismatch (h : list Event) :
  chip_id_at device h <> _CHIP_ID ->
  __init__ device h =
  (Err (RuntimeError (chip_id_at device (h ++ [EvRead _REGISTER_CHIPID 2]))),
   h ++ [EvRead _REGISTER_CHIPID 2; EvRead _REGISTER_CHIPID 2]).
Proof.
  intros Hid. unfold __init__, bind. rewrite get_device_id_run.
  apply Z.eqb_neq in Hid. rewrite Hid. cbn [negb].
  rewrite get_device_id_run. unfold raise.
  now rewrite <- app_assoc.
Qed.

Lemma init_match (h : list Event) :
  chip_id_at device h = _CHIP_ID ->
  exists coeffs,
    get_coeffs device (h ++ [EvRead _REGISTER_CHIPID 2])
    = (Ok coeffs, h ++ [EvRead _REGISTER_CHIPID 2; EvRead _REGISTER_AC1 22]) /\
    __init__ device h =
    (Ok {| _oversampling_setting := PRESSURE_OVERSAMPLING_X8;
           _mode := MODE_HIGHRES;
           coeffs_mem := coeffs;
           sea_level_pressure := 1013.25%R |},
     h ++ [EvRead _REGISTER_CHIPID 2; EvRead _REGISTER_AC1 22]).
Proof.
  intros Hid. eexists. split.
  - rewrite get_coeffs_run, <- app_assoc. reflexivity.
  - unfold __init__, bind. rewrite get_device_id_run.
    apply Z.eqb_eq in Hid. rewrite Hid. cbn [negb].
    rewrite get_coeffs_run, <- app_assoc. reflexivity.
Qed.
End DriverProperties.

(** C6. Construction reads the chip identifier and decides on it.  If the
    value differs from [_CHIP_ID], construction raises RuntimeError (the
    device-not-found error) and the bus has seen only two reads of the
    identifier register: no register of the calibration block is read.  If
    the value equals [_CHIP_ID], construction succeeds, the object holds
    the coefficients read from the block, and the block is read exactly
    once. *)
Theorem init_chip_id_gate (device : list Event -> Z -> Z) (h : list Event) :
  (chip_id_at device h <> _CHIP_ID ->
   exists id,
     __init__ device h =
     (Err (RuntimeError id),
      h ++ [EvRead _REGISTER_CHIPID 2; EvRead _REGISTER_CHIPID 2]) /\
     calibration_reads (snd (__init__ device h)) = calibration_reads h) /\
  (chip_id_at device h = _CHIP_ID ->
   exists self,
     __init__ device h =
     (Ok self, h ++ [EvRead _REGISTER_CHIPID 2; EvRead _REGISTER_AC1 22]) /\
     get_coeffs device (h ++ [EvRead _REGISTER_CHIPID 2])
     = (Ok (coeffs_mem self),
        h ++ [EvRead _REGISTER_CHIPID 2; EvRead _REGISTER_AC1 22]) /\
     calibration_reads (snd (__init__ device h)) = S (calibration_reads h)).
Proof.
  split; intros Hid.
  - eexists. rewrite (init_mismatch device h Hid). split; [reflexivity |].
    cbn [snd]. rewrite calibration_reads_app. cbn. lia.
  - destruct (init_match device h Hid) as (coeffs & Hc & Hi).
    eexists. rewrite Hi. split; [reflexivity |]. split; [exact Hc |].
    cbn [snd]. rewrite calibration_reads_app. cbn. lia.
Qed.

Lemma init_chip_id_gate_witness :
  (exists id,
     __init__ device_other [] =
     (Err (RuntimeError id), [EvRead _REGISTER_CHIPID 2; EvRead _REGISTER_CHIPID 2]) /\
     calibration_reads (snd (__init__ device_other [])) = 0%nat) /\
  (exists self,
     __init__ device_present [] =
     (Ok self, [EvRead _REGISTER_CHIPID 2; EvRead _REGISTER_AC1 22]) /\
     get_coeffs device_present [EvRead _REGISTER_CHIPID 2]
     = (Ok (coeffs_mem self), [EvRead _REGISTER_CHIPID 2; EvRead _REGISTER_AC1 22]) /\
     calibration_reads (snd (__init__ device_present [])) = 1%nat).
Proof.
  split.
  - apply (proj1 (init_chip_id_gate device_other [])).
    vm_compute. discriminate.
  - apply (proj2 (init_chip_id_gate device_present [])).
    vm_compute. reflexivity.
Defined.

(** C4, as stated, fails: the third coefficient is decoded as a signed
    word and the sixth as an unsigned one.  With the block bytes of the
    third word set to 0xC7, 0xD1 and those of the sixth to 0xFF, 0xFF the
    tuple holds -14383 (not the unsigned 51153) in third place and 65535
    (not the signed -1) in sixth place. *)
Lemma third_coefficient_signed_sixth_unsigned :
  let device := fun (_ : list Event) (register : Z) =>
    (if register =? 0xAE then 0xC7
     else if register =? 0xAF then 0xD1
     else if register =? 0xB4 then 0xFF
     else if register =? 0xB5 then 0xFF else 0)%Z in
  exists coeffs h,
    get_coeffs device [] = (Ok coeffs, h) /\
    calibration_word device [] 2 = 51153%Z /\
    nth 2 coeffs 0%Z = (-14383)%Z /\
    nth 2 coeffs 0%Z <> calibration_word device [] 2 /\
    calibration_word device [] 5 = 65535%Z /\
    nth 5 coeffs 0%Z = 65535%Z /\
    nth 5 coeffs 0%Z <> Struct.signed16 (calibration_word device [] 5).
Proof.
  intros device. eexists. eexists.
  split; [reflexivity |].
  repeat split; vm_compute; congruence.
Qed.

(** C4, amended.  The calibration load is one read of 22 bytes starting at
    register 0xAA, taken as 11 big-endian 16-bit words; every word is
    interpreted as signed except the 4th, 5th and 6th coefficients (AC4,
    AC5, AC6; positions 3, 4, 5 counting from 0), which are unsigned. *)
Theorem coeffs_layout (device : list Event -> Z -> Z) (h : list Event) :
  get_coeffs device h =
  (Ok (map (fun i => if ((3 <=? i) && (i <=? 5))%Z
                     then calibration_word device h i
                     else Struct.signed16 (calibration_word device h i))
           [0; 1; 2; 3; 4; 5; 6; 7; 8; 9; 10]%Z),
   h ++ [EvRead 0xAA 22]).
Proof. apply get_coeffs_run. Qed.

(** C7. The mode setter rejects every value outside {0, 1, 2, 3} and the
    oversampling setter every value outside {1, 2, 3, 4}, the keys of the
    command table; each raises ValueError and leaves the object, with all
    four of its fields, as it was. *)
Theorem setters_reject_without_mutation
  (self : BMP180) (mode_value oversampling_value : Z)
  (Hmode : ~ In mode_value [0; 1; 2; 3]%Z)
  (Hover : ~ In oversampling_value [1; 2; 3; 4]%Z) :
  set_mode self mode_value = (Err (ValueError mode_value), self) /\
  set_oversampling_setting self oversampling_value
  = (Err (ValueError oversampling_value), self).
Proof.
  split.
  - unfold set_mode.
    destruct (tuple_contains _BMP180_MODES mode_value) eqn:E; [| reflexivity].
    exfalso. apply Hmode. unfold tuple_contains in E.
    apply existsb_exists in E. destruct E as (x & Hx & Ex).
    apply Z.eqb_eq in Ex. subst x. exact Hx.
  - unfold set_oversampling_setting.
    destruct (dict_contains _BMP180_PRESSURE_CMD oversampling_value) eqn:E;
      [| reflexivity].
    exfalso. apply Hover. unfold dict_contains in E.
    apply existsb_exists in E. destruct E as ([k v] & Hx & Ex).
    apply Z.eqb_eq in Ex. cbn [fst] in Ex. subst k.
    apply (in_map fst) in Hx. exact Hx.
Qed.

Lemma setters_reject_without_mutation_witness :
  let self := {| _oversampling_setting := 4; _mode := 2;
                 coeffs_mem := datasheet_coeffs;
                 sea_level_pressure := 1013.25%R |} in
  set_mode self 4 = (Err (ValueError 4), self) /\
  set_oversampling_setting self 0 = (Err (ValueError 0), self).
Proof.
  intros self.
  apply (setters_reject_without_mutation self 4 0).
  - cbn [In]. lia.
  - cbn [In]. lia.
Defined.

(** The setters accept exactly the remaining values. *)
Lemma set_mode_accepts (self : BMP180) (value : Z) :
  In value [0; 1; 2; 3]%Z ->
  exists self', set_mode self value = (Ok tt, self') /\ _mode self' = value.
Proof.
  intros H. unfold set_mode.
  replace (tuple_contains _BMP180_MODES value) with true.
  - eexists. split; reflexivity.
  - symmetry. apply existsb_exists. exists value. split; [exact H |].
    apply Z.eqb_refl.
Qed.

Lemma set_oversampling_setting_accepts (self : BMP180) (value : Z) :
  In value [1; 2; 3; 4]%Z ->
  exists self', set_oversampling_setting self value = (Ok tt, self') /\
                _oversampling_setting self' = value.
Proof.
  intros H. unfold set_oversampling_setting.
  replace (dict_contains _BMP180_PRESSURE_CMD value) with true.
  - eexists. split; reflexivity.
  - symmetry. cbn [In] in H.
    destruct H as [<- | [<- | [<- | [<- | []]]]]; reflexivity.
Qed.

Section RawPressure.
Local Open Scope Z_scope.

Variable device : list Event -> Z -> Z.

Lemma low_byte (b0 b1 : Z) :
  0 <= b0 < 256 -> Z.land (b0 + b1 * 256) 0xFF = b0.
Proof.
  intros H. change 0xFF with (Z.ones 8).
  rewrite Z.land_ones by lia. change (2 ^ 8) with 256.
  rewrite Z.mod_add by lia. apply Z.mod_small. exact H.
Qed.

Lemma byte_at_range (h : list Event) (r : Z) : 0 <= byte_at device h r < 256.
Proof. unfold byte_at. apply Z.mod_pos_bound. lia. Qed.

Lemma bind_run {A B : Type} (m : M A) (k : A -> M B) (h h' : list Event) (a : A) :
  m h = (Ok a, h') -> bind m k h = k a h'.
Proof. intros H. unfold bind. now rewrite H. Qed.

Lemma bind_raise {A B : Type} (m : M A) (k : A -> M B) (h h' : list Event) (e : Exn) :
  m h = (Err e, h') -> bind m k h = (Err e, h').
Proof. intros H. unfold bind. now rewrite H. Qed.

Lemma set_reg_control_run (v : Z) (h : list Event) :
  set_reg_control v h =
  (Ok tt, h ++ [EvWrite _REGISTER_CONTROL [v mod 256; (v / 256) mod 256]]).
Proof. reflexivity. Qed.

Lemma sleep_run (seconds : Q) (h : list Event) :
  sleep seconds h = (Ok tt, h ++ [EvSleep seconds]).
Proof. reflexivity. Qed.

Lemma get_regdata_MSB_run (h : list Event) :
  get_regdata_MSB device h =
  (Ok (byte_at device h 0xF6 + byte_at device h 0xF7 * 256), h ++ [EvRead 0xF6 2]).
Proof. reflexivity. Qed.

Lemma get_regdata_LSB_run (h : list Event) :
  get_regdata_LSB device h =
  (Ok (byte_at device h 0xF7 + byte_at device h 0xF8 * 256), h ++ [EvRead 0xF7 2]).
Proof. reflexivity. Qed.

Lemma get_regdata_XLSB_run (h : list Event) :
  get_regdata_XLSB device h =
  (Ok (byte_at device h 0xF8 + byte_at device h 0xF9 * 256), h ++ [EvRead 0xF8 2]).
Proof. reflexivity. Qed.

Lemma get_raw_temperature_run (h : list Event) :
  get_raw_temperature device h =
  (Ok (byte_at device h 0xF6 * 256 + byte_at device h 0xF7), h ++ [EvRead 0xF6 2]).
Proof. reflexivity. Qed.

(** What one call of [_read_raw_pressure] does when the command lookup
    succeeds. *)
Lemma read_raw_pressure_run (self : BMP180) (h : list Event) (cmd : Z) :
  dict_getitem _BMP180_PRESSURE_CMD (_mode self) = Ok cmd ->
  let h1 := h ++ [EvWrite _REGISTER_CONTROL [cmd mod 256; (cmd / 256) mod 256];
                  EvSleep (settle_time (_mode self))] in
  let h2 := h1 ++ [EvRead 0xF6 2] in
  let h3 := h2 ++ [EvRead 0xF7 2] in
  _read_raw_pressure device self h =
  (Ok (Z.shiftr (Z.shiftl (byte_at device h1 0xF6) 16
                 + Z.shiftl (byte_at device h2 0xF7) 8
                 + byte_at device h3 0xF8)
                (8 - _mode self)),
   h3 ++ [EvRead 0xF8 2]).
Proof.
  intros Hcmd h1 h2 h3. unfold _read_raw_pressure.
  rewrite (bind_run _ _ h h cmd) by (unfold lift; now rewrite Hcmd).
  rewrite (bind_run _ _ _ _ tt (set_reg_control_run cmd h)).
  rewrite (bind_run _ _ _ _ tt (sleep_run _ _)).
  rewrite <- app_assoc. cbn [app]. fold h1.
  rewrite (bind_run _ _ _ _ _ (get_regdata_MSB_run h1)). fold h2.
  rewrite (bind_run _ _ _ _ _ (get_regdata_LSB_run h2)). fold h3.
  rewrite (bind_run _ _ _ _ _ (get_regdata_XLSB_run h3)).
  unfold ret. rewrite !low_byte by apply byte_at_range.
  reflexivity.
Qed.

Lemma read_raw_pressure_KeyError (self : BMP180) (h : list Event) :
  dict_getitem _BMP180_PRESSURE_CMD (_mode self) = Err (KeyError (_mode self)) ->
  _read_raw_pressure device self h = (Err (KeyError (_mode self)), h).
Proof.
  intros Hcmd. unfold _read_raw_pressure.
  apply bind_raise. unfold lift. now rewrite Hcmd.
Qed.
End RawPressure.

(** C2, evaluated on the code.  The command table is keyed by the
    oversampling constants 1..4 but [_read_raw_pressure] indexes it with
    the mode 0..3.  In mode 0, a mode the setter accepts, the lookup raises
    KeyError before anything is written, and so does [pressure] after its
    temperature read.  In modes 1, 2, 3 the lookup succeeds and the byte
    written is 0x34, 0x74, 0xB4: the command of the level below. *)
Theorem read_raw_pressure_command_lookup
  (device : list Event -> Z -> Z) (os : Z) (c : list Z) (s : R)
  (h : list Event) :
  let self := fun m => {| _oversampling_setting := os; _mode := m;
                          coeffs_mem := c; sea_level_pressure := s |} in
  set_mode (self 2%Z) 0 = (Ok tt, self 0%Z) /\
  _read_raw_pressure device (self 0%Z) h = (Err (KeyError 0), h) /\
  pressure device (self 0%Z) h =
  (Err (KeyError 0),
   h ++ [EvWrite 0xF4 [0x2E; 0]%Z; EvSleep 0.005; EvRead 0xF6 2]) /\
  snd (_read_raw_pressure device (self 1%Z) h) =
  h ++ [EvWrite 0xF4 [0x34; 0]%Z; EvSleep 0.005;
        EvRead 0xF6 2; EvRead 0xF7 2; EvRead 0xF8 2] /\
  snd (_read_raw_pressure device (self 2%Z) h) =
  h ++ [EvWrite 0xF4 [0x74; 0]%Z; EvSleep 0.008;
        EvRead 0xF6 2; EvRead 0xF7 2; EvRead 0xF8 2] /\
  snd (_read_raw_pressure device (self 3%Z) h) =
  h ++ [EvWrite 0xF4 [0xB4; 0]%Z; EvSleep 0.014;
        EvRead 0xF6 2; EvRead 0xF7 2; EvRead 0xF8 2].
Proof.
  intros self.
  split; [reflexivity |].
  split; [apply (read_raw_pressure_KeyError device (self 0%Z) h); reflexivity |].
  split.
  - unfold pressure.
    rewrite (bind_run _ _ _ _ tt (set_reg_control_run TEMPERATURE_CMD h)).
    rewrite (bind_run _ _ _ _ tt (sleep_run _ _)).
    rewrite (bind_run _ _ _ _ _ (get_raw_temperature_run device _)).
    rewrite <- !app_assoc. cbn [app].
    erewrite bind_raise;
      [reflexivity
      | apply (read_raw_pressure_KeyError device (self 0%Z)); reflexivity].
  - repeat split.
    + rewrite (read_raw_pressure_run device (self 1%Z) h 0x34 eq_refl).
      cbn [snd]. rewrite <- !app_assoc. reflexivity.
    + rewrite (read_raw_pressure_run device (self 2%Z) h 0x74 eq_refl).
      cbn [snd]. rewrite <- !app_assoc. reflexivity.
    + rewrite (read_raw_pressure_run device (self 3%Z) h 0xB4 eq_refl).
      cbn [snd]. rewrite <- !app_assoc. reflexivity.
Qed.

(** In the modes where the lookup succeeds, the value returned is the three
    data bytes, most significant first, shifted right by 8 - mode. *)
Lemma read_raw_pressure_value
  (device : list Event -> Z -> Z) (self : BMP180) (h : list Event) (cmd : Z) :
  dict_getitem _BMP180_PRESSURE_CMD (_mode self) = Ok cmd ->
  exists msb lsb xlsb,
    (0 <= msb < 256)%Z /\ (0 <= lsb < 256)%Z /\ (0 <= xlsb < 256)%Z /\
    fst (_read_raw_pressure device self h) =
    Ok (Z.shiftr (msb * 65536 + lsb * 256 + xlsb) (8 - _mode self)).
Proof.
  intros Hcmd.
  rewrite (read_raw_pressure_run device self h cmd Hcmd). cbn [fst].
  eexists. eexists. eexists.
  split; [apply (byte_at_range device) |].
  split; [apply (byte_at_range device) |].
  split; [apply (byte_at_range device) |].
  rewrite !Z.shiftl_mul_pow2 by lia. reflexivity.
Qed.

(** C3, evaluated on the code.  The delay is chosen by comparing the mode
    with the oversampling constants 4, 3, 2, so the [if] chain selects
    5 ms, 5 ms, 8 ms and 14 ms for the modes 0, 1, 2, 3: modes 0 and 1
    share a delay (and in mode 0 the read raises before it sleeps), mode 3
    gets the 14 ms of the level below, and the 26 ms delay is chosen for no
    mode the setter accepts.  A raw pressure read in mode 3 sleeps 14 ms on
    the bus. *)
Theorem settle_time_by_mode
  (device : list Event -> Z -> Z) (os : Z) (c : list Z) (s : R)
  (h : list Event) :
  settle_time 0 = 0.005%Q /\
  settle_time 1 = 0.005%Q /\
  settle_time 2 = 0.008%Q /\
  settle_time 3 = 0.014%Q /\
  ~ (settle_time 0 < settle_time 1)%Q /\
  (forall m, In m _BMP180_MODES -> ~ (settle_time m == 0.026)%Q) /\
  In (EvSleep 0.014)
     (snd (_read_raw_pressure device
             {| _oversampling_setting := os; _mode := MODE_ULTRAHIGHRES;
                coeffs_mem := c; sea_level_pressure := s |} h)).
Proof.
  repeat split.
  - intro H. vm_compute in H. discriminate H.
  - intros m Hm H. cbn [In _BMP180_MODES] in Hm.
    destruct Hm as [<- | [<- | [<- | [<- | []]]]];
      vm_compute in H; discriminate H.
  - erewrite read_raw_pressure_run by reflexivity. cbn [snd].
    rewrite !in_app_iff. left. left. left. right. cbn. auto.
Qed.

(** ** The altitude formulas: properties *)

Section AltitudeFacts.
Local Open Scope R_scope.

Lemma ln_le_sub_1 (y : R) : 0 < y -> ln y <= y - 1.
Proof.
  intros Hy. pose proof (exp_ineq1_le (ln y)) as H.
  rewrite (exp_ln y Hy) in H. lra.
Qed.

Lemma ln_ge_1_sub_inv (y : R) : 0 < y -> 1 - / y <= ln y.
Proof.
  intros Hy. pose proof (ln_le_sub_1 (/ y) (Rinv_0_lt_compat y Hy)) as H.
  rewrite (ln_Rinv y Hy) in H. lra.
Qed.

Lemma exp_monotone (a b : R) : a <= b -> exp a <= exp b.
Proof.
  intros [H | ->]; [left; now apply exp_increasing | right; reflexivity].
Qed.

Lemma exp_times_1_sub (t : R) : t < 1 -> exp t * (1 - t) <= 1.
Proof.
  intros Ht. pose proof (exp_ineq1_le (- t)) as H.
  rewrite exp_Ropp in H. pose proof (exp_pos t) as Hp.
  replace 1 with (exp t * / exp t) at 2 by (field; lra).
  apply Rmult_le_compat_l; lra.
Qed.

(** The product of the two exponents falls short of 1. *)
Lemma exponents_product : 5.255 * 0.19025 = 1 - 0.00023625.
Proof. lra. Qed.

Lemma Rpower_split (x e : R) :
  0 < x -> Rpower x e = x * exp ((1 - e) * - ln x).
Proof.
  intros Hx. unfold Rpower.
  replace (e * ln x) with (ln x + (1 - e) * - ln x) by ring.
  now rewrite exp_plus, exp_ln.
Qed.

Lemma round_trip_power_lower (x : R) :
  0 < x <= 1 ->
  x * (1 + 0.00023625 * (1 - x)) <= Rpower x (5.255 * 0.19025).
Proof.
  intros [Hx Hx1]. rewrite exponents_product, (Rpower_split x _ Hx).
  replace (1 - (1 - 0.00023625)) with 0.00023625 by lra.
  apply Rmult_le_compat_l; [lra |].
  pose proof (ln_le_sub_1 x Hx) as Hl.
  pose proof (exp_ineq1_le (0.00023625 * - ln x)) as He.
  nra.
Qed.

Lemma round_trip_power_upper (x : R) :
  0 < x <= 1 ->
  0.00023625 * (1 - x) < x ->
  Rpower x (5.255 * 0.19025) * (x - 0.00023625 * (1 - x)) <= x * x.
Proof.
  intros [Hx Hx1] Hd. rewrite exponents_product, (Rpower_split x _ Hx).
  replace (1 - (1 - 0.00023625)) with 0.00023625 by lra.
  set (t := 0.00023625 * (1 - x) / x).
  assert (Ht0 : 0 <= t).
  { unfold t. apply Rmult_le_pos; [nra |].
    left. now apply Rinv_0_lt_compat. }
  assert (Ht1 : t < 1).
  { unfold t. apply (Rmult_lt_reg_r x); [exact Hx |].
    replace (0.00023625 * (1 - x) / x * x) with (0.00023625 * (1 - x))
      by (field; lra).
    lra. }
  assert (Hl : 0.00023625 * - ln x <= t).
  { pose proof (ln_ge_1_sub_inv x Hx) as Hl.
    unfold t. replace (0.00023625 * (1 - x) / x)
      with (0.00023625 * (/ x - 1)) by (field; lra).
    nra. }
  pose proof (exp_monotone _ _ Hl) as He.
  pose proof (exp_times_1_sub t Ht1) as Hu.
  pose proof (exp_pos (0.00023625 * - ln x)) as Hp.
  assert (Hxt : x - 0.00023625 * (1 - x) = x * (1 - t)).
  { unfold t. field. lra. }
  rewrite Hxt.
  replace (x * exp (0.00023625 * - ln x) * (x * (1 - t)))
    with (x * x * (exp (0.00023625 * - ln x) * (1 - t))) by ring.
  assert (Hb : exp (0.00023625 * - ln x) * (1 - t) <= 1).
  { apply Rle_trans with (exp t * (1 - t)); [| exact Hu].
    apply Rmult_le_compat_r; lra. }
  assert (Hxx : 0 < x * x) by nra.
  nra.
Qed.

(** Rounding to a tenth. *)
Lemma round_half_even_near (y : R) (z : Z) :
  IZR z - 1 / 2 < y < IZR z + 1 / 2 -> Round.round_half_even y = z.
Proof.
  intros [Hlo Hhi].
  unfold Round.round_half_even.
  destruct (Rle_lt_dec (IZR z) y) as [Hge | Hlt].
  - assert (Hf : z = Int_part y) by (apply Int_part_spec; lra).
    rewrite <- Hf.
    destruct (Rlt_dec (y - IZR z) (1 / 2)); [reflexivity | lra].
  - assert (Hf : (z - 1)%Z = Int_part y).
    { apply Int_part_spec. rewrite minus_IZR. lra. }
    rewrite <- Hf. rewrite minus_IZR.
    destruct (Rlt_dec (y - (IZR z - 1)) (1 / 2)); [lra |].
    destruct (Rlt_dec (1 / 2) (y - (IZR z - 1))); [lia | lra].
Qed.

Lemma round_half_even_error (y : R) :
  y - 1 / 2 <= IZR (Round.round_half_even y) <= y + 1 / 2.
Proof.
  unfold Round.round_half_even.
  destruct (base_Int_part y) as [Hlo Hhi].
  set (f := Int_part y) in *.
  destruct (Rlt_dec (y - IZR f) (1 / 2)) as [H1 | H1].
  - lra.
  - destruct (Rlt_dec (1 / 2) (y - IZR f)) as [H2 | H2].
    + rewrite plus_IZR. lra.
    + destruct (Z.even f); [| rewrite plus_IZR]; lra.
Qed.

Lemma round1_error (x : R) : x - 0.05 <= Round.round1 x <= x + 0.05.
Proof.
  unfold Round.round1.
  pose proof (round_half_even_error (x * 10)) as H. lra.
Qed.

Lemma round1_near (x : R) (z : Z) :
  IZR z - 1 / 2 < x * 10 < IZR z + 1 / 2 -> Round.round1 x = IZR z / 10.
Proof.
  intros H. unfold Round.round1. now rewrite (round_half_even_near _ z H).
Qed.
End AltitudeFacts.

Section AltitudeRoundTrip.
Local Open Scope R_scope.

Lemma sea_level_of_run (p A : R) :
  A < 44330 ->
  Altitude.sea_level_of p A = Ok (p / Rpower (1 - A / 44330) 5.255).
Proof.
  intros HA. unfold Altitude.sea_level_of, Altitude.float_pow.
  destruct (Rlt_dec 0 (1 - A / 44330)) as [_ | Hn]; [| exfalso; lra].
  cbn [rbind]. unfold Altitude.rdiv.
  destruct (Req_dec_T (Rpower (1 - A / 44330) 5.255) 0) as [Hz | _];
    [| reflexivity].
  pose proof (exp_pos (5.255 * ln (1 - A / 44330))) as Hp.
  unfold Rpower in Hz. lra.
Qed.

Lemma altitude_of_run (p s : R) :
  0 < p -> 0 < s ->
  Altitude.altitude_of p s =
  Ok (Round.round1 (44330 * (1 - Rpower (p / s) 0.19025))).
Proof.
  intros Hp Hs. unfold Altitude.altitude_of, Altitude.rdiv.
  destruct (Req_dec_T s 0) as [Hz | _]; [exfalso; lra |].
  cbn [rbind]. unfold Altitude.float_pow.
  assert (Hq : 0 < p / s) by (apply Rdiv_lt_0_compat; assumption).
  destruct (Rlt_dec 0 (p / s)) as [_ | Hn]; [| contradiction].
  reflexivity.
Qed.

(** Setting the altitude and reading it back at the same pressure. *)
Lemma altitude_round_trip_run (p A : R) :
  0 < p -> A < 44330 ->
  exists s,
    Altitude.sea_level_of p A = Ok s /\
    0 < s /\
    Altitude.altitude_of p s =
    Ok (Round.round1
          (44330 * (1 - Rpower (1 - A / 44330) (5.255 * 0.19025)))).
Proof.
  intros Hp HA.
  set (w := Rpower (1 - A / 44330) 5.255).
  assert (Hw : 0 < w) by apply exp_pos.
  exists (p / w). split; [now apply sea_level_of_run |].
  assert (Hs : 0 < p / w) by (apply Rdiv_lt_0_compat; assumption).
  split; [exact Hs |].
  rewrite (altitude_of_run p (p / w) Hp Hs).
  replace (p / (p / w)) with w by (field; lra).
  unfold w. now rewrite Rpower_mult.
Qed.

(** With an exponent that is the reciprocal of 5.255 the round trip
    would return the altitude itself. *)
Remark reciprocal_exponent_round_trip (A : R) :
  A < 44330 ->
  44330 * (1 - Rpower (Rpower (1 - A / 44330) 5.255) (/ 5.255)) = A.
Proof.
  intros HA. rewrite Rpower_mult.
  replace (5.255 * / 5.255) with 1 by (field; lra).
  rewrite Rpower_1 by lra. field.
Qed.
End AltitudeRoundTrip.

(** The round trip in general, over the reals.  The getter raises the
    pressure ratio to 0.19025 and the setter uses 5.255; their product is
    0.99976375, not 1, so the altitude read back falls short of the one
    that was set.  For every pressure p > 0 and altitude 0 <= A < 44330 the
    round trip succeeds and returns the value below, which is at most
    A - 0.00023625 A (1 - A / 44330) + 0.05. *)
Theorem altitude_round_trip_shortfall (p A : R)
  (Hp : (0 < p)%R) (HA : (0 <= A < 44330)%R) :
  exists s a,
    Altitude.sea_level_of p A = Ok s /\
    Altitude.altitude_of p s = Ok a /\
    a = Round.round1
          (44330 * (1 - Rpower (1 - A / 44330) (5.255 * 0.19025)))%R /\
    (a <= A - 0.00023625 * A * (1 - A / 44330) + 0.05)%R.
Proof.
  destruct HA as [HA0 HA1].
  destruct (altitude_round_trip_run p A Hp HA1) as (s & Hs & _ & Ha).
  exists s. eexists. split; [exact Hs |]. split; [exact Ha |].
  split; [reflexivity |].
  set (x := (1 - A / 44330)%R).
  assert (Hx : (0 < x <= 1)%R) by (unfold x; lra).
  pose proof (round_trip_power_lower x Hx) as Hl.
  pose proof (round1_error (44330 * (1 - Rpower x (5.255 * 0.19025)))) as Hr.
  assert (HAx : (A = 44330 * (1 - x))%R) by (unfold x; field).
  assert (Hd : (0.00023625 * A * x = 44330 * (x * (0.00023625 * (1 - x))))%R)
    by (rewrite HAx at 1; ring).
  fold x. lra.
Qed.

Lemma altitude_round_trip_shortfall_witness :
  (0 < 900)%R /\ (0 <= 1000 < 44330)%R /\
  exists s a,
    Altitude.sea_level_of 900 1000 = Ok s /\
    Altitude.altitude_of 900 s = Ok a /\
    a = Round.round1
          (44330 * (1 - Rpower (1 - 1000 / 44330) (5.255 * 0.19025)))%R /\
    (a <= 1000 - 0.00023625 * 1000 * (1 - 1000 / 44330) + 0.05)%R.
Proof.
  split; [lra |]. split; [lra |].
  apply (altitude_round_trip_shortfall 900 1000); lra.
Defined.

(** C8, evaluated on the code, over the reals.  At a measured pressure of
    900 hPa, setting the altitude to 1000 m (which stores the back-solved
    sea-level reference) and reading the altitude back at the same pressure
    gives exactly 999.8 m: 0.2 m away from the altitude that was set, which
    is outside a tolerance of 0.1 m. *)
Lemma altitude_round_trip_at_1000 :
  exists s,
    Altitude.sea_level_of 900 1000 = Ok s /\
    Altitude.altitude_of 900 s = Ok 999.8%R /\
    (1000 - 999.8 > 0.1)%R.
Proof.
  destruct (altitude_round_trip_run 900 1000) as (s & Hs & _ & Ha); [lra | lra |].
  exists s. split; [exact Hs |]. split; [| lra].
  rewrite Ha. f_equal.
  set (x := (1 - 1000 / 44330)%R).
  assert (Hx : (0 < x <= 1)%R) by (unfold x; lra).
  pose proof (round_trip_power_lower x Hx) as Hl.
  assert (Hd : (0.00023625 * (1 - x) < x)%R) by (unfold x; lra).
  pose proof (round_trip_power_upper x Hx Hd) as Hu.
  set (r := Rpower x (5.255 * 0.19025)) in *.
  assert (Hr : (0.9774471 <= r <= 0.9774473)%R) by (unfold x in Hl, Hu; lra).
  rewrite (round1_near _ 9998); [lra |].
  lra.
Qed.

(** ** Further properties of the driver *)

Section Transactions.
Local Open Scope Z_scope.

Variable device : list Event -> Z -> Z.

(** The three bus events that open both [temperature] and [pressure]. *)
Lemma temperature_read_run {A : Type} (k : Z -> M A) (h : list Event) :
  bind (set_reg_control TEMPERATURE_CMD)
       (fun _ => bind (sleep 0.005)
                      (fun _ => bind (get_raw_temperature device) k)) h =
  k (byte_at device (h ++ [EvWrite 0xF4 [0x2E; 0]; EvSleep 0.005]) 0xF6 * 256
     + byte_at device (h ++ [EvWrite 0xF4 [0x2E; 0]; EvSleep 0.005]) 0xF7)
    (h ++ [EvWrite 0xF4 [0x2E; 0]; EvSleep 0.005; EvRead 0xF6 2]).
Proof.
  rewrite (bind_run _ _ _ _ tt (set_reg_control_run TEMPERATURE_CMD h)).
  rewrite (bind_run _ _ _ _ tt (sleep_run _ _)).
  rewrite (bind_run _ _ _ _ _ (get_raw_temperature_run device _)).
  rewrite <- !app_assoc. reflexivity.
Qed.

Lemma temperature_run (self : BMP180) (h : list Event) :
  let h1 := h ++ [EvWrite 0xF4 [0x2E; 0]; EvSleep 0.005] in
  temperature device self h =
  (temperature_compensation (coeffs_mem self)
     (byte_at device h1 0xF6 * 256 + byte_at device h1 0xF7),
   h ++ [EvWrite 0xF4 [0x2E; 0]; EvSleep 0.005; EvRead 0xF6 2]).
Proof.
  intros h1. unfold temperature. rewrite temperature_read_run. reflexivity.
Qed.

Lemma read_raw_pressure_raise (self : BMP180) (h : list Event) (e : Exn) :
  dict_getitem _BMP180_PRESSURE_CMD (_mode self) = Err e ->
  _read_raw_pressure device self h = (Err e, h).
Proof.
  intros Hcmd. unfold _read_raw_pressure.
  apply bind_raise. unfold lift. now rewrite Hcmd.
Qed.

Lemma pressure_run (self : BMP180) (h : list Event) (cmd : Z) :
  dict_getitem _BMP180_PRESSURE_CMD (_mode self) = Ok cmd ->
  let h1 := h ++ [EvWrite 0xF4 [0x2E; 0]; EvSleep 0.005] in
  let h2 := h ++ [EvWrite 0xF4 [0x2E; 0]; EvSleep 0.005; EvRead 0xF6 2] in
  let h3 := h2 ++ [EvWrite 0xF4 [cmd mod 256; (cmd / 256) mod 256];
                   EvSleep (settle_time (_mode self))] in
  let h4 := h3 ++ [EvRead 0xF6 2] in
  let h5 := h4 ++ [EvRead 0xF7 2] in
  let UT := byte_at device h1 0xF6 * 256 + byte_at device h1 0xF7 in
  let UP := Z.shiftr (Z.shiftl (byte_at device h3 0xF6) 16
                      + Z.shiftl (byte_at device h4 0xF7) 8
                      + byte_at device h5 0xF8)
                     (8 - _mode self) in
  _read_raw_pressure device self h2 = (Ok UP, h5 ++ [EvRead 0xF8 2]) /\
  pressure device self h =
  (pressure_compensation (coeffs_mem self) (_mode self) UT UP,
   h5 ++ [EvRead 0xF8 2]).
Proof.
  intros Hcmd h1 h2 h3 h4 h5 UT UP.
  pose proof (read_raw_pressure_run device self h2 cmd Hcmd) as Hr.
  cbv zeta in Hr. fold h3 h4 h5 UP in Hr.
  split; [exact Hr |].
  unfold pressure. rewrite temperature_read_run. fold h1 h2 UT.
  rewrite (bind_run _ _ _ _ _ Hr). reflexivity.
Qed.

Lemma pressure_raise (self : BMP180) (h : list Event) (e : Exn) :
  dict_getitem _BMP180_PRESSURE_CMD (_mode self) = Err e ->
  pressure device self h =
  (Err e, h ++ [EvWrite 0xF4 [0x2E; 0]; EvSleep 0.005; EvRead 0xF6 2]).
Proof.
  intros Hcmd. unfold pressure. rewrite temperature_read_run.
  erewrite bind_raise; [reflexivity |].
  now apply read_raw_pressure_raise.
Qed.
End Transactions.

Section ArithmeticErrors.
Local Open Scope Q_scope.
Local Open Scope result_scope.

Lemma truediv_error (x y : Q) (e : Exn) :
  truediv x y = Err e -> e = ZeroDivisionError.
Proof.
  unfold truediv. destruct (Qeq_bool y 0); intros H; now inversion H.
Qed.

Lemma press_select_error (B7 B4 : Q) (e : Exn) :
  press_select B7 B4 = Err e -> e = ZeroDivisionError.
Proof.
  unfold press_select, press_low, press_high.
  destruct (Qlt_le_dec B7 2147483648).
  - apply truediv_error.
  - destruct (truediv B7 B4) as [r | e'] eqn:E; cbn [rbind].
    + discriminate.
    + intros H. inversion H. subst e'. now apply truediv_error in E.
Qed.

Lemma pressure_compensation_error (c : list Z) (m UT UP : Z) (e : Exn) :
  pressure_compensation c m UT UP = Err e -> e = ZeroDivisionError.
Proof.
  unfold pressure_compensation. rewrite pressure_B5_eq.
  destruct (truediv (of_int (item c 9) * 2 ^ 11) (temperature_divisor c UT))
    as [X2 | e'] eqn:E; cbn [rbind].
  - destruct (pressure_B4_B7_total c m UP
                (of_int ((UT - item c 5) * item c 4) / 2 ^ 15 + X2))
      as [[B4 B7] H47].
    rewrite H47. cbn [rbind fst snd].
    destruct (press_select B7 B4) as [p | e'] eqn:Es; cbn [rbind].
    + destruct (pressure_final_total p) as [q Hq]. rewrite Hq. discriminate.
    + intros H. inversion H. subst e'. now apply press_select_error in Es.
  - intros H. inversion H. subst e'. now apply truediv_error in E.
Qed.
End ArithmeticErrors.

Section ZeroDivisors.
Local Open Scope Q_scope.
Local Open Scope result_scope.




End ZeroDivisors.



Section Ranges.
Local Open Scope Z_scope.

Lemma raw_word_range (b0 b1 : Z) :
  0 <= b0 < 256 -> 0 <= b1 < 256 -> 0 <= b0 * 256 + b1 < 65536.
Proof. lia. Qed.

Lemma raw_pressure_range (msb lsb xlsb m : Z) :
  0 <= msb < 256 -> 0 <= lsb < 256 -> 0 <= xlsb < 256 ->
  In m [1; 2; 3] ->
  0 <= Z.shiftr (Z.shiftl msb 16 + Z.shiftl lsb 8 + xlsb) (8 - m)
    < 2 ^ (16 + m).
Proof.
  intros Hm Hl Hx Hin.
  rewrite !Z.shiftl_mul_pow2 by lia.
  change (2 ^ 16) with 65536. change (2 ^ 8) with 256.
  assert (Hs : 0 <= msb * 65536 + lsb * 256 + xlsb < 16777216) by lia.
  cbn [In] in Hin.
  destruct Hin as [<- | [<- | [<- | []]]];
    rewrite Z.shiftr_div_pow2 by lia; cbn [Z.sub Z.add Z.opp Z.pos_sub
      Pos.pred_double Z.succ_double Z.pred_double Z.double];
    (split; [apply Z.div_pos; lia | apply Z.div_lt_upper_bound; lia]).
Qed.

Lemma signed16_range (w : Z) :
  0 <= w < 65536 -> -32768 <= Struct.signed16 w <= 32767.
Proof.
  intros H. unfold Struct.signed16.
  destruct (Z.ltb_spec w 32768); lia.
Qed.
End Ranges.

(** X1. A temperature read always performs the same three bus events, in
    order: the command 0x2E written to the control register, a 5 ms sleep,
    and a two-byte read of the data register.  Its outcome is the
    compensation of a raw count between 0 and 65535; the only error it can
    raise is ZeroDivisionError, and the bus events have happened by then. *)
Theorem temperature_transaction
  (device : list Event -> Z -> Z) (self : BMP180) (h : list Event) :
  exists UT,
    (0 <= UT < 65536)%Z /\
    temperature device self h =
    (temperature_compensation (coeffs_mem self) UT,
     h ++ [EvWrite 0xF4 [0x2E; 0]%Z; EvSleep 0.005; EvRead 0xF6 2]) /\
    (forall e, fst (temperature device self h) = Err e ->
               e = ZeroDivisionError).
Proof.
  pose proof (temperature_run device self h) as Hr. cbv zeta in Hr.
  eexists. split; [| split; [exact Hr |]].
  - apply raw_word_range; apply byte_at_range.
  - intros e. rewrite Hr. cbn [fst]. apply temperature_compensation_error.
Qed.

(** X2. In the modes 1, 2 and 3 a raw pressure read returns a count of at
    most 16 + mode bits: 0 <= UP < 2^(16 + mode). *)
Theorem read_raw_pressure_range
  (device : list Event -> Z -> Z) (self : BMP180) (h : list Event)
  (Hmode : In (_mode self) [1; 2; 3]%Z) :
  exists UP,
    fst (_read_raw_pressure device self h) = Ok UP /\
    (0 <= UP < 2 ^ (16 + _mode self))%Z.
Proof.
  assert (Hcmd : exists cmd,
             dict_getitem _BMP180_PRESSURE_CMD (_mode self) = Ok cmd).
  { cbn [In] in Hmode.
    destruct Hmode as [<- | [<- | [<- | []]]]; eexists; reflexivity. }
  destruct Hcmd as [cmd Hcmd].
  rewrite (read_raw_pressure_run device self h cmd Hcmd). cbn [fst].
  eexists. split; [reflexivity |].
  apply raw_pressure_range; try apply byte_at_range. exact Hmode.
Qed.

Lemma read_raw_pressure_range_witness :
  let self := {| _oversampling_setting := 4; _mode := 3;
                 coeffs_mem := datasheet_coeffs;
                 sea_level_pressure := 1013.25%R |} in
  In (_mode self) [1; 2; 3]%Z /\
  exists UP,
    fst (_read_raw_pressure (fun _ _ => 255%Z) self []) = Ok UP /\
    (0 <= UP < 2 ^ (16 + _mode self))%Z.
Proof.
  intros self.
  assert (H : In (_mode self) [1; 2; 3]%Z) by (cbn; auto).
  split; [exact H |].
  exact (read_raw_pressure_range (fun _ _ => 255%Z) self [] H).
Defined.

(** X3. In the modes 1, 2 and 3 a pressure read performs eight bus events:
    the temperature command, a 5 ms sleep and the two-byte read of the raw
    temperature, then the pressure command found under the mode, the
    settle time, and three two-byte reads at 0xF6, 0xF7, 0xF8.  Its outcome
    is the compensation of the two raw counts, and the only error it can
    raise is ZeroDivisionError. *)
Theorem pressure_transaction
  (device : list Event -> Z -> Z) (self : BMP180) (h : list Event)
  (Hmode : In (_mode self) [1; 2; 3]%Z) :
  exists cmd UT UP,
    dict_getitem _BMP180_PRESSURE_CMD (_mode self) = Ok cmd /\
    (0 <= UT < 65536)%Z /\
    (0 <= UP < 2 ^ (16 + _mode self))%Z /\
    pressure device self h =
    (pressure_compensation (coeffs_mem self) (_mode self) UT UP,
     h ++ [EvWrite 0xF4 [0x2E; 0]%Z; EvSleep 0.005; EvRead 0xF6 2;
           EvWrite 0xF4 [cmd; 0]%Z; EvSleep (settle_time (_mode self));
           EvRead 0xF6 2; EvRead 0xF7 2; EvRead 0xF8 2]) /\
    (forall e, fst (pressure device self h) = Err e ->
               e = ZeroDivisionError).
Proof.
  assert (Hcmd : exists cmd,
             dict_getitem _BMP180_PRESSURE_CMD (_mode self) = Ok cmd /\
             [cmd mod 256; (cmd / 256) mod 256]%Z = [cmd; 0]%Z).
  { cbn [In] in Hmode.
    destruct Hmode as [<- | [<- | [<- | []]]]; eexists; split; reflexivity. }
  destruct Hcmd as (cmd & Hcmd & Hbytes).
  destruct (pressure_run device self h cmd Hcmd) as [_ Hp].
  cbv zeta in Hp. rewrite Hbytes in Hp.
  rewrite <- !app_assoc in Hp. cbn [app] in Hp.
  eexists cmd, _, _.
  split; [exact Hcmd |].
  split; [apply raw_word_range; apply byte_at_range |].
  split; [apply raw_pressure_range; try apply byte_at_range; exact Hmode |].
  split.
  - rewrite Hp. reflexivity.
  - intros e. rewrite Hp. cbn [fst]. apply pressure_compensation_error.
Qed.

Lemma pressure_transaction_witness :
  let self := {| _oversampling_setting := 4; _mode := 2;
                 coeffs_mem := datasheet_coeffs;
                 sea_level_pressure := 1013.25%R |} in
  In (_mode self) [1; 2; 3]%Z /\
  exists cmd UT UP,
    dict_getitem _BMP180_PRESSURE_CMD (_mode self) = Ok cmd /\
    (0 <= UT < 65536)%Z /\
    (0 <= UP < 2 ^ (16 + _mode self))%Z /\
    pressure device_present self [] =
    (pressure_compensation (coeffs_mem self) (_mode self) UT UP,
     [] ++ [EvWrite 0xF4 [0x2E; 0]%Z; EvSleep 0.005; EvRead 0xF6 2;
            EvWrite 0xF4 [cmd; 0]%Z; EvSleep (settle_time (_mode self));
            EvRead 0xF6 2; EvRead 0xF7 2; EvRead 0xF8 2]) /\
    (forall e, fst (pressure device_present self []) = Err e ->
               e = ZeroDivisionError).
Proof.
  intros self.
  assert (H : In (_mode self) [1; 2; 3]%Z) by (cbn; auto).
  split; [exact H |].
  exact (pressure_transaction device_present self [] H).
Defined.

(** X4. Measuring never reads the calibration block again: whatever the
    object and the sensor, a temperature read, a raw pressure read and a
    pressure read, failing or not, leave the number of reads that touch the
    registers 0xAA..0xBF as it was. *)
Theorem measurements_never_read_calibration
  (device : list Event -> Z -> Z) (self : BMP180) (h : list Event) :
  calibration_reads (snd (temperature device self h)) = calibration_reads h /\
  calibration_reads (snd (_read_raw_pressure device self h)) = calibration_reads h /\
  calibration_reads (snd (pressure device self h)) = calibration_reads h.
Proof.
  split; [| split].
  - pose proof (temperature_run device self h) as Hr. cbv zeta in Hr.
    rewrite Hr. cbn [snd]. rewrite calibration_reads_app. cbn. lia.
  - destruct (dict_getitem _BMP180_PRESSURE_CMD (_mode self)) as [cmd | e] eqn:E.
    + rewrite (read_raw_pressure_run device self h cmd E). cbn [snd].
      rewrite !calibration_reads_app. cbn. lia.
    + rewrite (read_raw_pressure_raise device self h e E). reflexivity.
  - destruct (dict_getitem _BMP180_PRESSURE_CMD (_mode self)) as [cmd | e] eqn:E.
    + destruct (pressure_run device self h cmd E) as [_ Hp].
      cbv zeta in Hp. rewrite Hp. cbn [snd].
      rewrite !calibration_reads_app. cbn. lia.
    + rewrite (pressure_raise device self h e E). cbn [snd].
      rewrite calibration_reads_app. cbn. lia.
Qed.

Section SettingsInvariant.
Local Open Scope Z_scope.

Lemma set_mode_cases (self : BMP180) (value : Z) :
  (In value [0; 1; 2; 3] /\
   snd (set_mode self value) =
   {| _oversampling_setting := _oversampling_setting self;
      _mode := value;
      coeffs_mem := coeffs_mem self;
      sea_level_pressure := sea_level_pressure self |}) \/
  (~ In value [0; 1; 2; 3] /\ snd (set_mode self value) = self).
Proof.
  unfold set_mode.
  destruct (tuple_contains _BMP180_MODES value) eqn:E; cbn [negb snd].
  - left. split; [| reflexivity].
    apply existsb_exists in E. destruct E as (x & Hx & Ex).
    apply Z.eqb_eq in Ex. now subst x.
  - right. split; [| reflexivity].
    intros Hin. assert (Ht : tuple_contains _BMP180_MODES value = true).
    { apply existsb_exists. exists value. split; [exact Hin | apply Z.eqb_refl]. }
    congruence.
Qed.

Lemma set_oversampling_setting_cases (self : BMP180) (value : Z) :
  (In value [1; 2; 3; 4] /\
   snd (set_oversampling_setting self value) =
   {| _oversampling_setting := value;
      _mode := _mode self;
      coeffs_mem := coeffs_mem self;
      sea_level_pressure := sea_level_pressure self |}) \/
  (~ In value [1; 2; 3; 4] /\ snd (set_oversampling_setting self value) = self).
Proof.
  unfold set_oversampling_setting.
  destruct (dict_contains _BMP180_PRESSURE_CMD value) eqn:E; cbn [negb snd].
  - left. split; [| reflexivity].
    apply existsb_exists in E. destruct E as ([k v] & Hx & Ex).
    apply Z.eqb_eq in Ex. cbn [fst] in Ex. subst k.
    apply (in_map fst) in Hx. exact Hx.
  - right. split; [| reflexivity].
    intros Hin. cbn [In] in Hin.
    destruct Hin as [<- | [<- | [<- | [<- | []]]]]; discriminate E.
Qed.

Lemma apply_call_keeps (self : BMP180) (c : SettingCall) :
  valid_settings self ->
  valid_settings (apply_call self c) /\
  coeffs_mem (apply_call self c) = coeffs_mem self.
Proof.
  intros [Hm Ho]. destruct c as [v | v | r]; cbn [apply_call].
  - destruct (set_mode_cases self v) as [[Hin ->] | [_ ->]];
      (split; [split; assumption | reflexivity]).
  - destruct (set_oversampling_setting_cases self v) as [[Hin ->] | [_ ->]];
      (split; [split; assumption | reflexivity]).
  - split; [split; assumption | reflexivity].
Qed.
End SettingsInvariant.

(** X5. The settings stay valid and the coefficients stay fixed: starting
    from an object whose mode is in {0, 1, 2, 3} and whose oversampling
    setting is in {1, 2, 3, 4}, as the constructor leaves it, any sequence
    of calls of the two setters (accepted or rejected) and of assignments
    to [sea_level_pressure] keeps both within these sets and leaves
    [coeffs_mem] as it was loaded. *)
Theorem settings_stay_valid (self : BMP180) (calls : list SettingCall)
  (Hvalid : valid_settings self) :
  valid_settings (apply_calls self calls) /\
  coeffs_mem (apply_calls self calls) = coeffs_mem self.
Proof.
  unfold apply_calls. revert self Hvalid.
  induction calls as [| c calls IH]; intros self Hvalid; cbn [fold_left].
  - split; [exact Hvalid | reflexivity].
  - destruct (apply_call_keeps self c Hvalid) as [Hv Hc].
    destruct (IH (apply_call self c) Hv) as [Hv' Hc'].
    split; [exact Hv' | now rewrite Hc'].
Qed.

Lemma settings_stay_valid_witness :
  let self := {| _oversampling_setting := 4; _mode := 2;
                 coeffs_mem := datasheet_coeffs;
                 sea_level_pressure := 1013.25%R |} in
  let calls := [CallSetMode 7; CallSetMode 0; CallSetOversampling 9;
                AssignSeaLevel 1016.8%R; CallSetOversampling 1] in
  valid_settings self /\
  valid_settings (apply_calls self calls) /\
  coeffs_mem (apply_calls self calls) = coeffs_mem self.
Proof.
  intros self calls.
  assert (H : valid_settings self) by (split; cbn; auto).
  split; [exact H |].
  exact (settings_stay_valid self calls H).
Defined.

Section CoefficientRanges.
Local Open Scope Z_scope.

Variable device : list Event -> Z -> Z.

Lemma calibration_word_range (h : list Event) (i : Z) :
  0 <= calibration_word device h i < 65536.
Proof. unfold calibration_word. apply raw_word_range; apply byte_at_range. Qed.
End CoefficientRanges.

(** X6. The calibration load always yields a tuple of exactly 11 integers;
    AC4, AC5 and AC6 (positions 3, 4, 5) lie in 0..65535 and every other
    coefficient lies in -32768..32767. *)
Theorem coeffs_ranges (device : list Event -> Z -> Z) (h : list Event) :
  exists coeffs,
    fst (get_coeffs device h) = Ok coeffs /\
    length coeffs = 11%nat /\
    forall i, (i < 11)%nat ->
      if ((3 <=? i) && (i <=? 5))%nat
      then (0 <= item coeffs i <= 65535)%Z
      else (-32768 <= item coeffs i <= 32767)%Z.
Proof.
  rewrite get_coeffs_run. cbn [fst]. eexists.
  split; [reflexivity |]. split; [reflexivity |].
  intros i Hi.
  pose proof (calibration_word_range device h) as Hw.
  do 11 (destruct i as [| i];
         [cbn; first [ pose proof (Hw 3%Z); pose proof (Hw 4%Z);
                       pose proof (Hw 5%Z); lia
                     | apply signed16_range; apply Hw ] |]).
  lia.
Qed.

(** X7. A freshly constructed object can measure pressure.  When the chip
    identifier matches, construction followed by a pressure read never
    raises KeyError: the object is in mode 2, the read writes the command
    0x74 and waits 8 ms, the bus sees the ten events below, and the only
    possible error is ZeroDivisionError from the arithmetic. *)
Theorem init_then_pressure (device : list Event -> Z -> Z) (h : list Event)
  (Hid : chip_id_at device h = _CHIP_ID) :
  exists self,
    fst (__init__ device h) = Ok self /\
    valid_settings self /\
    snd (bind (__init__ device) (pressure device) h) =
    h ++ [EvRead 0xD0 2; EvRead 0xAA 22;
          EvWrite 0xF4 [0x2E; 0]%Z; EvSleep 0.005; EvRead 0xF6 2;
          EvWrite 0xF4 [0x74; 0]%Z; EvSleep 0.008;
          EvRead 0xF6 2; EvRead 0xF7 2; EvRead 0xF8 2] /\
    (forall e, fst (bind (__init__ device) (pressure device) h) = Err e ->
               e = ZeroDivisionError).
Proof.
  destruct (init_match device h Hid) as (coeffs & _ & Hi).
  eexists. rewrite Hi. cbn [fst]. split; [reflexivity |].
  split; [split; cbn; auto |].
  rewrite (bind_run _ _ _ _ _ Hi).
  match goal with
  | |- context [pressure device ?s ?h1] =>
      destruct (pressure_run device s h1 0x74%Z eq_refl) as [_ Hp]
  end.
  cbv zeta in Hp. rewrite Hp. cbn [fst snd]. split.
  - rewrite <- !app_assoc. reflexivity.
  - intros e. apply pressure_compensation_error.
Qed.

Lemma init_then_pressure_witness :
  chip_id_at device_present [] = _CHIP_ID /\
  exists self,
    fst (__init__ device_present []) = Ok self /\
    valid_settings self /\
    snd (bind (__init__ device_present) (pressure device_present) []) =
    [] ++ [EvRead 0xD0 2; EvRead 0xAA 22;
           EvWrite 0xF4 [0x2E; 0]%Z; EvSleep 0.005; EvRead 0xF6 2;
           EvWrite 0xF4 [0x74; 0]%Z; EvSleep 0.008;
           EvRead 0xF6 2; EvRead 0xF7 2; EvRead 0xF8 2] /\
    (forall e,
        fst (bind (__init__ device_present) (pressure device_present) []) = Err e ->
        e = ZeroDivisionError).
Proof.
  assert (H : chip_id_at device_present [] = _CHIP_ID) by reflexivity.
  split; [exact H |].
  exact (init_then_pressure device_present [] H).
Defined.

Section AltitudeOrder.
Local Open Scope R_scope.

Lemma round_half_even_monotone (a b : R) :
  a <= b -> (Round.round_half_even a <= Round.round_half_even b)%Z.
Proof.
  intros Hab.
  destruct (Z_le_gt_dec (Round.round_half_even a) (Round.round_half_even b))
    as [Hle | Hgt]; [exact Hle | exfalso].
  pose proof (round_half_even_error a) as Ha.
  pose proof (round_half_even_error b) as Hb.
  assert (H1 : IZR (Round.round_half_even b) + 1 <= IZR (Round.round_half_even a)).
  { rewrite <- plus_IZR. apply IZR_le. lia. }
  assert (Heq : a = b) by lra.
  subst b. lia.
Qed.

Lemma round1_monotone (x y : R) : x <= y -> Round.round1 x <= Round.round1 y.
Proof.
  intros Hxy. unfold Round.round1.
  assert (H : IZR (Round.round_half_even (x * 10))
              <= IZR (Round.round_half_even (y * 10))).
  { apply IZR_le. apply round_half_even_monotone. lra. }
  lra.
Qed.

Lemma round1_tenths (z : Z) : Round.round1 (IZR z / 10) = IZR z / 10.
Proof.
  apply round1_near. replace (IZR z / 10 * 10) with (IZR z) by field. lra.
Qed.

Lemma Rpower_1_l (y : R) : Rpower 1 y = 1.
Proof. unfold Rpower. now rewrite ln_1, Rmult_0_r, exp_0. Qed.
End AltitudeOrder.

(** X8. The altitude falls as the pressure rises.  For a positive sea-level
    reference and two positive pressures p1 <= p2, both altitude
    computations succeed and the one for p2 is not above the one for p1;
    at the reference pressure itself the altitude is 0. *)
Theorem altitude_decreases_with_pressure (s p1 p2 : R)
  (Hs : (0 < s)%R) (Hp : (0 < p1 <= p2)%R) :
  exists a1 a2,
    Altitude.altitude_of p1 s = Ok a1 /\
    Altitude.altitude_of p2 s = Ok a2 /\
    (a2 <= a1)%R /\
    Altitude.altitude_of s s = Ok 0%R.
Proof.
  destruct Hp as [Hp1 Hp12].
  assert (Hp2 : (0 < p2)%R) by lra.
  rewrite (altitude_of_run p1 s Hp1 Hs), (altitude_of_run p2 s Hp2 Hs),
    (altitude_of_run s s Hs Hs).
  eexists. eexists. split; [reflexivity |]. split; [reflexivity |].
  split.
  - apply round1_monotone.
    assert (Hq : (0 < p1 / s <= p2 / s)%R).
    { split; [now apply Rdiv_lt_0_compat |].
      apply Rmult_le_compat_r; [| exact Hp12].
      left. now apply Rinv_0_lt_compat. }
    pose proof (Rle_Rpower_l (p1 / s) (p2 / s) 0.19025) as Hm.
    assert (H0 : (0 <= 0.19025)%R) by lra.
    specialize (Hm H0 Hq). lra.
  - f_equal.
    replace (s / s)%R with 1%R by (field; lra).
    rewrite Rpower_1_l.
    replace (44330 * (1 - 1))%R with (IZR 0 / 10)%R by lra.
    rewrite round1_tenths. lra.
Qed.

Lemma altitude_decreases_with_pressure_witness :
  (0 < 1013.25)%R /\ (0 < 900 <= 950)%R /\
  exists a1 a2,
    Altitude.altitude_of 900 1013.25 = Ok a1 /\
    Altitude.altitude_of 950 1013.25 = Ok a2 /\
    (a2 <= a1)%R /\
    Altitude.altitude_of 1013.25 1013.25 = Ok 0%R.
Proof.
  split; [lra |]. split; [lra |].
  apply (altitude_decreases_with_pressure 1013.25 900 950); lra.
Defined.

(** X9. Edge behaviour of the altitude formulas.  Reading the altitude
    with a sea-level reference of 0 raises ZeroDivisionError; setting the
    altitude to 44330 raises ZeroDivisionError, because the power is 0;
    and at a measured pressure of 0 the altitude read is 44330 for every
    nonzero reference. *)
Theorem altitude_edge_cases (p s : R) (Hs : s <> 0%R) :
  Altitude.altitude_of p 0 = Err ZeroDivisionError /\
  Altitude.sea_level_of p 44330 = Err ZeroDivisionError /\
  Altitude.altitude_of 0 s = Ok 44330%R.
Proof.
  split; [| split].
  - unfold Altitude.altitude_of, Altitude.rdiv.
    destruct (Req_dec_T 0 0) as [_ | Hn]; [reflexivity | contradiction].
  - unfold Altitude.sea_level_of, Altitude.float_pow.
    destruct (Rlt_dec 0 (1 - 44330 / 44330)) as [Hlt | _]; [exfalso; lra |].
    destruct (Req_dec_T (1 - 44330 / 44330) 0) as [_ | Hn];
      [| exfalso; apply Hn; field].
    cbn [rbind]. unfold Altitude.rdiv.
    destruct (Req_dec_T 0 0) as [_ | Hn]; [reflexivity | contradiction].
  - unfold Altitude.altitude_of, Altitude.rdiv.
    destruct (Req_dec_T s 0) as [Hz | _]; [contradiction |].
    cbn [rbind]. unfold Altitude.float_pow.
    assert (H0 : (0 / s = 0)%R) by (unfold Rdiv; apply Rmult_0_l).
    rewrite H0.
    destruct (Rlt_dec 0 0) as [Hlt | _]; [exfalso; lra |].
    destruct (Req_dec_T 0 0) as [_ | Hn]; [| contradiction].
    cbn [rbind]. f_equal.
    replace (44330 * (1 - 0))%R with (IZR 443300 / 10)%R by lra.
    rewrite round1_tenths. lra.
Qed.

Lemma altitude_edge_cases_witness :
  (1013.25 <> 0)%R /\
  Altitude.altitude_of 900 0 = Err ZeroDivisionError /\
  Altitude.sea_level_of 900 44330 = Err ZeroDivisionError /\
  Altitude.altitude_of 0 1013.25 = Ok 44330%R.
Proof.
  split; [lra |].
  apply (altitude_edge_cases 900 1013.25). lra.
Defined.

(** X10. How far the altitude round trip can drift.  For a positive
    pressure and an altitude A between 0 and 22165 m, setting the altitude
    and reading it back at the same pressure succeeds, never returns more
    than A + 0.05, and returns at least A - 0.000237 A - 0.05: the loss is
    at most 0.0237 percent of the altitude plus the final rounding. *)
Theorem altitude_round_trip_error (p A : R)
  (Hp : (0 < p)%R) (HA : (0 <= A <= 22165)%R) :
  exists s a,
    Altitude.sea_level_of p A = Ok s /\
    Altitude.altitude_of p s = Ok a /\
    (A - 0.000237 * A - 0.05 <= a <= A + 0.05)%R.
Proof.
  destruct HA as [HA0 HA1].
  destruct (altitude_round_trip_run p A Hp) as (s & Hs & _ & Ha); [lra |].
  exists s. eexists. split; [exact Hs |]. split; [exact Ha |].
  set (x := (1 - A / 44330)%R).
  assert (Hx : (0 < x <= 1)%R) by (unfold x; lra).
  assert (Hx2 : (1 / 2 <= x)%R) by (unfold x; lra).
  pose proof (round_trip_power_lower x Hx) as Hl.
  assert (Hd : (0.00023625 * (1 - x) < x)%R) by lra.
  pose proof (round_trip_power_upper x Hx Hd) as Hu.
  fold x.
  set (r := Rpower x (5.255 * 0.19025)) in *.
  pose proof (round1_error (44330 * (1 - r))) as Hr.
  assert (HAx : (A = 44330 * (1 - x))%R) by (unfold x; field).
  assert (Hrl : (x <= r)%R) by nra.
  assert (Hru : (r <= x + 0.000237 * (1 - x))%R).
  { assert (Hpos : (0 < x - 0.00023625 * (1 - x))%R) by lra.
    assert (Hk : (x * x <= (x + 0.000237 * (1 - x))
                           * (x - 0.00023625 * (1 - x)))%R) by nra.
    apply (Rmult_le_reg_r (x - 0.00023625 * (1 - x))); [exact Hpos |].
    lra. }
  lra.
Qed.

Lemma altitude_round_trip_error_witness :
  (0 < 900)%R /\ (0 <= 1000 <= 22165)%R /\
  exists s a,
    Altitude.sea_level_of 900 1000 = Ok s /\
    Altitude.altitude_of 900 s = Ok a /\
    (1000 - 0.000237 * 1000 - 0.05 <= a <= 1000 + 0.05)%R.
Proof.
  split; [lra |]. split; [lra |].
  apply (altitude_round_trip_error 900 1000); lra.
Defined.

(** ** Order properties of the compensation *)

Section CompensationOrder.
Local Open Scope Q_scope.
Local Open Scope result_scope.

Lemma temperature_compensation_value (c : list Z) (UT : Z) :
  ~ temperature_divisor c UT == 0 ->
  temperature_compensation c UT =
  Ok ((of_int ((UT - item c 5) * item c 4) / 2 ^ 15
       + of_int (item c 9) * 2 ^ 11 / temperature_divisor c UT + 8)
      / 2 ^ 4 / 10).
Proof.
  intros Hd. unfold temperature_compensation.
  rewrite temperature_B5_eq, (truediv_ok _ _ Hd). cbn [rbind].
  now rewrite temperature_tail_total.
Qed.

Lemma compensated_value_order (x1 x2 K d1 d2 : Q) :
  0 < d1 -> d1 <= d2 -> K <= 0 -> x1 <= x2 ->
  (x1 + K / d1 + 8) / 2 ^ 4 / 10 <= (x2 + K / d2 + 8) / 2 ^ 4 / 10.
Proof.
  intros Hd1 Hd12 HK Hx.
  assert (Hd2 : 0 < d2) by Lqa.lra.
  assert (Ha : 0 < / d1) by now apply Qinv_lt_0_compat.
  assert (Hb : 0 < / d2) by now apply Qinv_lt_0_compat.
  assert (Hab : / d1 - / d2 == / d1 * / d2 * (d2 - d1)).
  { field. split; intro H; rewrite H in *; Lqa.lra. }
  assert (Hge : 0 <= / d1 - / d2).
  { rewrite Hab. apply Qmult_le_0_compat; [| Lqa.lra].
    apply Qmult_le_0_compat; Lqa.lra. }
  assert (HK2 : K * / d1 <= K * / d2) by Lqa.nra.
  unfold Qdiv. change (2 ^ 4) with 16.
  change (/ 16) with (1 # 16). change (/ 10) with (1 # 10).
  Lqa.lra.
Qed.

(** B3 and B4 do not depend on the raw pressure; B7 is linear in it. *)
Lemma pressure_B4_B7_shape (c : list Z) (m : Z) (B5 : Q) :
  exists B3 B4, forall UP,
    pressure_B4_B7 c m UP B5 = Ok (B4, (of_int UP - B3) * (50000 / 2 ^ m)).
Proof.
  eexists. eexists. intros UP.
  unfold pressure_B4_B7.
  cbn [rbind truediv Qeq_bool].
  change (Qeq_bool (2 ^ 12) 0) with false.
  change (Qeq_bool (2 ^ 11) 0) with false.
  change (Qeq_bool (2 ^ 13) 0) with false.
  change (Qeq_bool (2 ^ 16) 0) with false.
  change (Qeq_bool (2 ^ 15) 0) with false.
  change (Qeq_bool (2 ^ 2) 0) with false.
  change (Qeq_bool 4 0) with false.
  cbv iota beta.
  rewrite (truediv_ok 50000 (2 ^ m) (pow2_nonzero m)).
  cbn [rbind]. reflexivity.
Qed.

Lemma press_select_value (B7 B4 : Q) :
  ~ B4 == 0 ->
  exists q, press_select B7 B4 = Ok q /\ q == B7 * 2 / B4.
Proof.
  intros HB4. unfold press_select. destruct (Qlt_le_dec B7 2147483648).
  - rewrite press_low_eq by assumption. eexists. split; reflexivity.
  - rewrite press_high_eq by assumption. eexists. split; [reflexivity |].
    field. assumption.
Qed.

Lemma pressure_final_value (press : Q) :
  pressure_final press =
  Ok ((press + (press / 2 ^ 8 * (press / 2 ^ 8) * 3038 / 2 ^ 16
                + -7357 * press / 2 ^ 16 + 3791) / 2 ^ 4) / 100).
Proof. reflexivity. Qed.

Lemma pressure_final_order (v1 v2 : Q) :
  0 <= v1 -> v1 <= v2 ->
  (v1 + (v1 / 2 ^ 8 * (v1 / 2 ^ 8) * 3038 / 2 ^ 16
         + -7357 * v1 / 2 ^ 16 + 3791) / 2 ^ 4) / 100
  <= (v2 + (v2 / 2 ^ 8 * (v2 / 2 ^ 8) * 3038 / 2 ^ 16
            + -7357 * v2 / 2 ^ 16 + 3791) / 2 ^ 4) / 100.
Proof.
  intros H1 H12.
  unfold Qdiv.
  change (2 ^ 8) with 256. change (2 ^ 16) with 65536. change (2 ^ 4) with 16.
  change (/ 256) with (1 # 256). change (/ 65536) with (1 # 65536).
  change (/ 16) with (1 # 16). change (/ 100) with (1 # 100).
  assert (Hsq : v1 * v1 <= v2 * v2) by Lqa.nra.
  Lqa.nra.
Qed.
End CompensationOrder.

(** X11. The temperature rises with the raw count.  When AC5 is not
    negative (it is read unsigned), MC is not positive, and the divisor
    X1 + MD is positive at the lower of two raw counts UT1 <= UT2, both
    compensations succeed and the temperature for UT1 is not above the one
    for UT2. *)
Theorem temperature_rises_with_raw_count (coeffs_mem : list Z) (UT1 UT2 : Z)
  (HAC5 : (0 <= item coeffs_mem 4)%Z)
  (HMC : (item coeffs_mem 9 <= 0)%Z)
  (HUT : (UT1 <= UT2)%Z)
  (Hdiv : (0 < temperature_divisor coeffs_mem UT1)%Q) :
  exists t1 t2,
    temperature_compensation coeffs_mem UT1 = Ok t1 /\
    temperature_compensation coeffs_mem UT2 = Ok t2 /\
    (t1 <= t2)%Q.
Proof.
  set (c := coeffs_mem) in *.
  assert (Hraw : (inject_Z ((UT1 - item c 5) * item c 4)
                  <= inject_Z ((UT2 - item c 5) * item c 4))%Q).
  { rewrite <- Zle_Qle. nia. }
  assert (HK : (of_int (item c 9) * 2 ^ 11 <= 0)%Q).
  { unfold of_int. change (2 ^ 11)%Q with 2048%Q.
    assert (H0 : (inject_Z (item c 9) <= inject_Z 0)%Q)
      by (rewrite <- Zle_Qle; exact HMC).
    change (inject_Z 0) with 0%Q in H0. Lqa.lra. }
  assert (Hx : (of_int ((UT1 - item c 5) * item c 4) / 2 ^ 15
                <= of_int ((UT2 - item c 5) * item c 4) / 2 ^ 15)%Q).
  { unfold of_int, Qdiv. change (/ 2 ^ 15)%Q with (1 # 32768)%Q. Lqa.lra. }
  assert (Hd12 : (temperature_divisor c UT1 <= temperature_divisor c UT2)%Q).
  { unfold temperature_divisor. Lqa.lra. }
  assert (Hd1 : ~ (temperature_divisor c UT1 == 0)%Q).
  { intros H. rewrite H in Hdiv. Lqa.lra. }
  assert (Hd2 : ~ (temperature_divisor c UT2 == 0)%Q).
  { intros H. rewrite H in Hd12. Lqa.lra. }
  rewrite (temperature_compensation_value c UT1 Hd1),
    (temperature_compensation_value c UT2 Hd2).
  eexists. eexists. split; [reflexivity |]. split; [reflexivity |].
  now apply compensated_value_order.
Qed.

Lemma temperature_rises_with_raw_count_witness :
  (0 <= item datasheet_coeffs 4)%Z /\
  (item datasheet_coeffs 9 <= 0)%Z /\
  (27898 <= 27899)%Z /\
  (0 < temperature_divisor datasheet_coeffs 27898)%Q /\
  exists t1 t2,
    temperature_compensation datasheet_coeffs 27898 = Ok t1 /\
    temperature_compensation datasheet_coeffs 27899 = Ok t2 /\
    (t1 <= t2)%Q.
Proof.
  assert (H1 : (0 <= item datasheet_coeffs 4)%Z) by (vm_compute; discriminate).
  assert (H2 : (item datasheet_coeffs 9 <= 0)%Z) by (vm_compute; discriminate).
  assert (H3 : (27898 <= 27899)%Z) by lia.
  assert (H4 : (0 < temperature_divisor datasheet_coeffs 27898)%Q)
    by (vm_compute; reflexivity).
  split; [exact H1 |]. split; [exact H2 |]. split; [exact H3 |].
  split; [exact H4 |].
  exact (temperature_rises_with_raw_count datasheet_coeffs 27898 27899
           H1 H2 H3 H4).
Defined.

(** X12. The pressure rises with the raw pressure count.  At a fixed raw
    temperature, mode and coefficient tuple, if the B4 of the computation
    is positive and B7 is not negative at the lower of two raw counts
    UP1 <= UP2, both compensations succeed and the pressure for UP1 is not
    above the one for UP2. *)
Theorem pressure_rises_with_raw_count
  (coeffs_mem : list Z) (mode UT UP1 UP2 : Z) (B5 B4 B7 : Q)
  (HB5 : pressure_B5 coeffs_mem UT = Ok B5)
  (HB47 : pressure_B4_B7 coeffs_mem mode UP1 B5 = Ok (B4, B7))
  (HB4 : (0 < B4)%Q) (HB7 : (0 <= B7)%Q) (HUP : (UP1 <= UP2)%Z) :
  exists p1 p2,
    pressure_compensation coeffs_mem mode UT UP1 = Ok p1 /\
    pressure_compensation coeffs_mem mode UT UP2 = Ok p2 /\
    (p1 <= p2)%Q.
Proof.
  destruct (pressure_B4_B7_shape coeffs_mem mode B5) as (B3 & B4' & Hshape).
  pose proof (Hshape UP1) as H1. rewrite HB47 in H1.
  inversion H1 as [[E4 E7]]. clear H1. subst B4'.
  pose proof (Hshape UP2) as H2.
  set (s := (50000 / 2 ^ mode)%Q) in *.
  assert (Hs : (0 < s)%Q).
  { unfold s, Qdiv. apply Qmult_lt_0_compat; [reflexivity |].
    apply Qinv_lt_0_compat. apply Qpower_0_lt. reflexivity. }
  assert (Hup : (of_int UP1 <= of_int UP2)%Q)
    by (unfold of_int; rewrite <- Zle_Qle; exact HUP).
  set (B7' := ((of_int UP2 - B3) * s)%Q) in *.
  assert (H77 : (B7 <= B7')%Q).
  { rewrite E7. unfold B7'. Lqa.nra. }
  assert (Hnz : ~ (B4 == 0)%Q) by (intros H; rewrite H in HB4; Lqa.lra).
  destruct (press_select_value B7 B4 Hnz) as (q1 & Hq1 & Eq1).
  destruct (press_select_value B7' B4 Hnz) as (q2 & Hq2 & Eq2).
  unfold pressure_compensation. rewrite HB5. cbn [rbind].
  rewrite HB47, H2. cbn [rbind fst snd].
  rewrite Hq1, Hq2. cbn [rbind].
  rewrite !pressure_final_value.
  eexists. eexists. split; [reflexivity |]. split; [reflexivity |].
  assert (Hinv : (0 < / B4)%Q) by now apply Qinv_lt_0_compat.
  apply pressure_final_order.
  - rewrite Eq1. unfold Qdiv. Lqa.nra.
  - rewrite Eq1, Eq2. unfold Qdiv. Lqa.nra.
Qed.

Lemma pressure_rises_with_raw_count_witness :
  pressure_B5 datasheet_coeffs datasheet_UT = Ok datasheet_B5 /\
  pressure_B4_B7 datasheet_coeffs 1 datasheet_UP datasheet_B5
  = Ok (fst datasheet_B4_B7, snd datasheet_B4_B7) /\
  (0 < fst datasheet_B4_B7)%Q /\
  (0 <= snd datasheet_B4_B7)%Q /\
  (datasheet_UP <= datasheet_UP + 1)%Z /\
  exists p1 p2,
    pressure_compensation datasheet_coeffs 1 datasheet_UT datasheet_UP = Ok p1 /\
    pressure_compensation datasheet_coeffs 1 datasheet_UT (datasheet_UP + 1) = Ok p2 /\
    (p1 <= p2)%Q.
Proof.
  assert (H1 : pressure_B5 datasheet_coeffs datasheet_UT = Ok datasheet_B5)
    by (vm_compute; reflexivity).
  assert (H2 : pressure_B4_B7 datasheet_coeffs 1 datasheet_UP datasheet_B5
               = Ok (fst datasheet_B4_B7, snd datasheet_B4_B7))
    by (vm_compute; reflexivity).
  assert (H3 : (0 < fst datasheet_B4_B7)%Q) by (vm_compute; reflexivity).
  assert (H4 : (0 <= snd datasheet_B4_B7)%Q) by (vm_compute; discriminate).
  assert (H5 : (datasheet_UP <= datasheet_UP + 1)%Z) by lia.
  split; [exact H1 |]. split; [exact H2 |]. split; [exact H3 |].
  split; [exact H4 |]. split; [exact H5 |].
  exact (pressure_rises_with_raw_count datasheet_coeffs 1 datasheet_UT
           datasheet_UP (datasheet_UP + 1) datasheet_B5
           (fst datasheet_B4_B7) (snd datasheet_B4_B7) H1 H2 H3 H4 H5).
Defined.

(** ** The polling program: properties *)

Section ProgramProperties.
Local Open Scope Q_scope.
Import Program.

Lemma clock_monotone_earlier (t0 t0' : Q) (ticks : list Tick) :
  t0' <= t0 -> clock_monotone t0 ticks -> clock_monotone t0' ticks.
Proof.
  intros Hle. destruct ticks as [| t rest]; cbn [clock_monotone].
  - trivial.
  - intros (H0 & H1 & H2). repeat split; try assumption.
    now apply Qle_trans with t0.
Qed.

Lemma alert_due_true (last_violation : Q) (t : Tick) :
  alert_due last_violation t = true ->
  HIGH_TEMP < tempF t /\ MAIL_DELAY < now t - last_violation.
Proof.
  unfold alert_due.
  destruct (Qlt_le_dec HIGH_TEMP (tempF t)); [| discriminate].
  destruct (Qlt_le_dec MAIL_DELAY (now t - last_violation)); [| discriminate].
  intros _. split; assumption.
Qed.

Lemma loop_spaced (ticks : list Tick) :
  forall prev last_violation,
    prev <= last_violation ->
    clock_monotone last_violation ticks ->
    spaced prev (loop last_violation ticks).
Proof.
  induction ticks as [| t rest IH]; intros prev lastv Hprev Hclock;
    cbn [loop]; [exact I |].
  cbn [clock_monotone] in Hclock. destruct Hclock as (H0 & H1 & H2).
  destruct (alert_due lastv t) eqn:E.
  - apply alert_due_true in E. destruct E as [_ Hd].
    cbn [spaced]. split; [Lqa.lra |].
    apply IH; assumption.
  - apply IH; [exact Hprev |].
    apply clock_monotone_earlier with (stamp t); [Lqa.lra | exact H2].
Qed.

Lemma loop_hot (ticks : list Tick) :
  forall last_violation,
    Forall (fun t => HIGH_TEMP < tempF t /\ In t ticks)
           (loop last_violation ticks).
Proof.
  induction ticks as [| t rest IH]; intros lastv; cbn [loop]; [constructor |].
  destruct (alert_due lastv t) eqn:E.
  - constructor.
    + split; [now apply alert_due_true in E | now left].
    + eapply Forall_impl; [| apply IH]. intros a [Ha Hin].
      split; [exact Ha | now right].
  - eapply Forall_impl; [| apply IH]. intros a [Ha Hin].
    split; [exact Ha | now right].
Qed.
End ProgramProperties.

(** X13. Mails are rate limited.  On a clock that never runs backwards,
    whatever the temperatures, the passes of the polling loop that send a
    mail are more than [MAIL_DELAY] = 600 s apart, the first of them more
    than 600 s after the start value of [last_violation]; and a mail is
    only ever sent on a pass whose temperature is above [HIGH_TEMP] = 83. *)
Theorem mails_are_rate_limited
  (last_violation : Q) (ticks : list Program.Tick)
  (Hclock : Program.clock_monotone last_violation ticks) :
  Program.spaced last_violation (Program.loop last_violation ticks) /\
  Forall (fun t => (Program.HIGH_TEMP < Program.tempF t)%Q /\ In t ticks)
         (Program.loop last_violation ticks).
Proof.
  split.
  - apply loop_spaced; [apply Qle_refl | exact Hclock].
  - apply loop_hot.
Qed.

Lemma mails_are_rate_limited_witness :
  let ticks :=
    [ {| Program.tempF := 90; Program.now := 30; Program.stamp := 30 |};
      {| Program.tempF := 90; Program.now := 601; Program.stamp := 602 |};
      {| Program.tempF := 90; Program.now := 1202; Program.stamp := 1202 |};
      {| Program.tempF := 70; Program.now := 1300; Program.stamp := 1300 |} ] in
  Program.clock_monotone 0 ticks /\
  Program.spaced 0 (Program.loop 0 ticks) /\
  Forall (fun t => (Program.HIGH_TEMP < Program.tempF t)%Q /\ In t ticks)
         (Program.loop 0 ticks).
Proof.
  intros ticks.
  assert (H : Program.clock_monotone 0 ticks).
  { cbn. repeat split; discriminate. }
  split; [exact H |].
  exact (mails_are_rate_limited 0 ticks H).
Defined.

(** On such a run exactly one mail goes out: the second pass is the first
    one more than 600 s after the start, and the third pass comes exactly
    600 s after the stamp of that mail, which is not enough. *)
Example loop_run :
  map Program.now
      (Program.loop 0
         [ {| Program.tempF := 90; Program.now := 30; Program.stamp := 30 |};
           {| Program.tempF := 90; Program.now := 601; Program.stamp := 602 |};
           {| Program.tempF := 90; Program.now := 1202; Program.stamp := 1202 |};
           {| Program.tempF := 70; Program.now := 1300; Program.stamp := 1300 |} ])
  = [601%Q].
Proof. reflexivity. Qed.

(** X14. The alarm band in Celsius.  [get_tempF] converts with
    F = C * 9/5 + 32, a map that never decreases.  A sensor temperature of
    28.34 degrees Celsius or more gives a reading above [HIGH_TEMP] = 83,
    and one of 28.33 degrees or less a reading below it; between the two
    lies the switch-over, near 85/3.  The call performs the three bus
    events of one temperature read and fails exactly when that read fails,
    with the same error. *)
Theorem get_tempF_alarm_band
  (device : list Event -> Z -> Z) (bmp : BMP180) (h : list Event) :
  (forall tempC : Q,
      (28.34 <= tempC)%Q -> (Program.HIGH_TEMP < Program.tempF_of tempC)%Q) /\
  (forall tempC : Q,
      (tempC <= 28.33)%Q -> (Program.tempF_of tempC < Program.HIGH_TEMP)%Q) /\
  (forall c1 c2 : Q,
      (c1 <= c2)%Q -> (Program.tempF_of c1 <= Program.tempF_of c2)%Q) /\
  snd (Program.get_tempF device bmp h) =
  h ++ [EvWrite 0xF4 [0x2E; 0]%Z; EvSleep 0.005; EvRead 0xF6 2] /\
  (forall tempC, fst (temperature device bmp h) = Ok tempC ->
                 fst (Program.get_tempF device bmp h)
                 = Ok (Program.tempF_of tempC)) /\
  (forall e, fst (temperature device bmp h) = Err e ->
             fst (Program.get_tempF device bmp h) = Err e).
Proof.
  split; [| split; [| split; [| split; [| split]]]].
  - intros tempC H. unfold Program.HIGH_TEMP, Program.tempF_of.
    change (9 / 5)%Q with (9 # 5)%Q. Lqa.lra.
  - intros tempC H. unfold Program.HIGH_TEMP, Program.tempF_of.
    change (9 / 5)%Q with (9 # 5)%Q. Lqa.lra.
  - intros c1 c2 H. unfold Program.tempF_of.
    change (9 / 5)%Q with (9 # 5)%Q. Lqa.lra.
  - unfold Program.get_tempF, bind.
    pose proof (temperature_run device bmp h) as Hr. cbv zeta in Hr.
    rewrite Hr.
    destruct (temperature_compensation _ _); reflexivity.
  - intros tempC Ht. unfold Program.get_tempF, bind.
    destruct (temperature device bmp h) as [[t | e] h']; cbn [fst] in *.
    + inversion Ht. reflexivity.
    + discriminate.
  - intros e Ht. unfold Program.get_tempF, bind.
    destruct (temperature device bmp h) as [[t | e'] h']; cbn [fst] in *.
    + discriminate.
    + exact Ht.
Qed.

Section SettingsAndMeasurements.

Variable device : list Event -> Z -> Z.

Lemma apply_call_fields (self : BMP180) (c : SettingCall) :
  coeffs_mem (apply_call self c) = coeffs_mem self /\
  (match c with CallSetMode _ => True
           | _ => _mode (apply_call self c) = _mode self end).
Proof.
  destruct c as [v | v | r]; cbn [apply_call].
  - split; [| exact I].
    destruct (set_mode_cases self v) as [[_ ->] | [_ ->]]; reflexivity.
  - destruct (set_oversampling_setting_cases self v) as [[_ ->] | [_ ->]];
      split; reflexivity.
  - split; reflexivity.
Qed.

Lemma temperature_depends_on_coeffs (self self' : BMP180) (h : list Event) :
  coeffs_mem self' = coeffs_mem self ->
  temperature device self' h = temperature device self h.
Proof. intros H. unfold temperature. now rewrite H. Qed.

Lemma pressure_depends_on_coeffs_and_mode
  (self self' : BMP180) (h : list Event) :
  coeffs_mem self' = coeffs_mem self -> _mode self' = _mode self ->
  pressure device self' h = pressure device self h.
Proof.
  intros Hc Hm. unfold pressure, _read_raw_pressure. now rewrite Hc, Hm.
Qed.
End SettingsAndMeasurements.

(** X15. What a measurement depends on.  After any sequence of setter
    calls and sea-level assignments a temperature read does exactly what
    it did before; and if the sequence contains no call of the mode setter,
    so does a pressure read.  Only the coefficients and the mode enter a
    measurement: the oversampling setting, in particular, has no effect on
    what is written to the sensor or on how long the driver waits. *)
Theorem measurements_ignore_settings
  (device : list Event -> Z -> Z) (self : BMP180)
  (calls : list SettingCall) (h : list Event) :
  temperature device (apply_calls self calls) h = temperature device self h /\
  (forallb (fun c => negb (is_mode_call c)) calls = true ->
   pressure device (apply_calls self calls) h = pressure device self h).
Proof.
  assert (H : coeffs_mem (apply_calls self calls) = coeffs_mem self /\
              (forallb (fun c => negb (is_mode_call c)) calls = true ->
               _mode (apply_calls self calls) = _mode self)).
  { unfold apply_calls. revert self.
    induction calls as [| c calls IH]; intros self; cbn [fold_left forallb].
    - split; [reflexivity | intros _; reflexivity].
    - destruct (IH (apply_call self c)) as [Hc Hm].
      destruct (apply_call_fields self c) as [Hc1 Hm1].
      split; [now rewrite Hc |].
      intros Hall. apply andb_true_iff in Hall. destruct Hall as [H1 H2].
      rewrite (Hm H2).
      destruct c; [discriminate H1 | exact Hm1 | exact Hm1]. }
  destruct H as [Hc Hm]. split.
  - now apply temperature_depends_on_coeffs.
  - intros Hall. apply pressure_depends_on_coeffs_and_mode; auto.
Qed.

Lemma measurements_ignore_settings_witness :
  let self := {| _oversampling_setting := 4; _mode := 2;
                 coeffs_mem := datasheet_coeffs;
                 sea_level_pressure := 1013.25%R |} in
  let calls := [CallSetOversampling 1; AssignSeaLevel 1016.8%R;
                CallSetOversampling 9] in
  temperature device_present (apply_calls self calls) []
  = temperature device_present self [] /\
  pressure device_present (apply_calls self calls) []
  = pressure device_present self [].
Proof.
  intros self calls.
  destruct (measurements_ignore_settings device_present self calls [])
    as [Ht Hp].
  split; [exact Ht | exact (Hp eq_refl)].
Defined.
